(** * PenmanEv: the Penman evaporation engine of [penman_calculation.py]

    A shallow embedding of the class [PenmanEvaporation] and the properties
    its specification states about it.

    Numbers.  The program computes with Python floats (IEEE binary64) and
    the functions [math.sqrt], [math.sin], [math.radians] of the C library.
    The specification states its formulas over the real numbers, and so
    does this development: a Python float is a real of [R], the operators
    [+ - * /] are the exact ones, and rounding, infinities and NaN are out
    of the model.  What the model keeps of Python's arithmetic is where it
    raises: [math.sqrt] on a negative argument, float division by zero, and
    [x ** 2] when the square of a finite [x] is beyond the range of
    binary64.  Where rounding decides a statement, the arithmetic of the
    evaporation formula is replayed in binary64 (section "The formula in
    binary64").

    Exceptions.  A call either returns a value or raises; a raising call is
    a value [Raise e] of the type [result]. *)

From Stdlib Require Import Reals Lra Psatz.
From Stdlib Require Import ZArith Bool List String Ascii.
From Stdlib Require Floats.
Import ListNotations.

Open Scope R_scope.

(** ** Exceptions and the result monad *)

(** The exceptions the engine can raise, by the place that raises them.
    Three of them are Python's [ValueError] (with different messages), the
    others are [ZeroDivisionError] and [OverflowError]. *)
Inductive exn : Type :=
| StrptimeValueError      (* ValueError of datetime.strptime, line 105 *)
| WindFunctionValueError  (* ValueError("Invalid wind function specified"), line 71 *)
| MathDomainError         (* ValueError("math domain error") of math.sqrt *)
| ZeroDivisionError       (* "float division by zero", rs / ra *)
| OverflowError.          (* "Numerical result out of range", (rs / ra) ** 2 *)

(** The error taxonomy of the specification (section 7), and a fourth kind
    for what the taxonomy does not list. *)
Inductive ErrorKind : Type :=
| FormatError
| InvalidParameterError
| NumericDomainError
| UnlistedError.

Definition error_kind (e : exn) : ErrorKind :=
  match e with
  | StrptimeValueError => FormatError
  | WindFunctionValueError => InvalidParameterError
  | MathDomainError => NumericDomainError
  | ZeroDivisionError => NumericDomainError
  | OverflowError => UnlistedError
  end.

Inductive result (A : Type) : Type :=
| Return (a : A)
| Raise (e : exn).

Arguments Return {A} a.
Arguments Raise {A} e.

Definition bind {A B : Type} (m : result A) (k : A -> result B) : result B :=
  match m with
  | Return a => k a
  | Raise e => Raise e
  end.

Declare Scope result_scope.
Delimit Scope result_scope with result.
Notation "x <- m ;; k" := (bind m (fun x => k))
  (at level 61, m at next level, right associativity) : result_scope.
Notation "' p <- m ;; k" := (bind m (fun x => match x with p => k end))
  (at level 61, p pattern, m at next level, right associativity) : result_scope.
Open Scope result_scope.

(** [fails_with m k]: the call [m] raises an exception of kind [k]. *)
Definition fails_with {A : Type} (m : result A) (k : ErrorKind) : Prop :=
  exists e, m = Raise e /\ error_kind e = k.

(** [returns_value m]: the call [m] returns (raises nothing). *)
Definition returns_value {A : Type} (m : result A) : Prop :=
  exists a, m = Return a.

(** ** Python's arithmetic where it can raise *)

(** [math.sqrt x]: raises on a negative argument. *)
Definition math_sqrt (x : R) : result R :=
  if Rlt_dec x 0 then Raise MathDomainError else Return (sqrt x).

(** [x / y] on floats: raises when the divisor is zero. *)
Definition truediv (x y : R) : result R :=
  if Req_EM_T y 0 then Raise ZeroDivisionError else Return (x / y).

(** The largest finite binary64 number, [(2 - 2^-52) * 2^1023]. *)
Definition float_max_Z : Z := (2 ^ 1024 - 2 ^ 971)%Z.
Definition float_max : R := IZR float_max_Z.

(** [x ** 2] on floats (the C library's [pow]) raises when the square of a
    finite [x] is out of range.  An [x] that is itself out of range stands
    for an infinite quotient, whose square Python returns as infinite
    without an error. *)
Definition pow2_overflows (x : R) : Prop :=
  float_max < x ^ 2 /\ Rabs x <= float_max.

Definition float_pow2 (x : R) : result R :=
  if Rlt_dec float_max (x ^ 2)
  then if Rle_dec (Rabs x) float_max
       then Raise OverflowError
       else Return (x ^ 2)
  else Return (x ^ 2).

(** [math.radians x]: the C library multiplies by pi / 180. *)
Definition math_radians (x : R) : R := x * (PI / 180).

(** [max(0, x)]: Python keeps the first argument unless a later one is
    greater. *)
Definition max0 (x : R) : R := if Rgt_dec x 0 then x else 0.

(** ** Dates *)

(** A [datetime.date]: the engine reads its [month] only. *)
Record date : Type := mkdate { year : Z; month : Z; day : Z }.

(** The [date] argument of the engine: text ([isinstance(date, str)]) or a
    structured date. *)
Inductive date_arg : Type :=
| DateText (s : string)
| DateValue (d : date).

(** *** [datetime.strptime(s, '%Y-%m-%d').date()]

    The library function, not code of the repository, modelled after
    CPython's [_strptime]: the format is turned into the regular expression
    [(\d\d\d\d)-(1[0-2]|0[1-9]|[1-9])-(3[0-1]|[1-2]\d|0[1-9]|[1-9]| [1-9])],
    matched at the start of the text with ordered alternatives; text left
    after the match, and a day the month does not have, raise [ValueError].
    Each group yields its candidate matches in the order of the
    alternatives.

    A text is the string of its UTF-8 bytes.  The class [\d] is the one of
    Python's [re] on text: every Unicode decimal digit, which [int] then
    reads by its decimal value; the ranges [[0-2]], [[1-9]] are ASCII. *)

Definition byte (c : ascii) : Z := Z.of_nat (nat_of_ascii c).

(** The payload of a UTF-8 continuation byte. *)
Definition continuation (c : ascii) : option Z :=
  let b := byte c in
  if ((128 <=? b) && (b <=? 191))%Z then Some (b - 128)%Z else None.

(** The code point at the head of a text, and the text after it: one to
    four bytes, shortest form only, no surrogate. *)
Definition head_code_point (s : string) : option (Z * string) :=
  match s with
  | EmptyString => None
  | String c0 r0 =>
      let b0 := byte c0 in
      if (b0 <? 128)%Z then Some (b0, r0)
      else if ((194 <=? b0) && (b0 <=? 223))%Z then
        match r0 with
        | String c1 r1 =>
            match continuation c1 with
            | Some x1 => Some (((b0 - 192) * 64 + x1)%Z, r1)
            | None => None
            end
        | EmptyString => None
        end
      else if ((224 <=? b0) && (b0 <=? 239))%Z then
        match r0 with
        | String c1 (String c2 r2) =>
            match continuation c1, continuation c2 with
            | Some x1, Some x2 =>
                let cp := ((b0 - 224) * 4096 + x1 * 64 + x2)%Z in
                if ((2048 <=? cp)
                    && negb ((55296 <=? cp) && (cp <=? 57343)))%Z
                then Some (cp, r2) else None
            | _, _ => None
            end
        | _ => None
        end
      else if ((240 <=? b0) && (b0 <=? 244))%Z then
        match r0 with
        | String c1 (String c2 (String c3 r3)) =>
            match continuation c1, continuation c2, continuation c3 with
            | Some x1, Some x2, Some x3 =>
                let cp := ((b0 - 240) * 262144 + x1 * 4096 + x2 * 64 + x3)%Z in
                if ((65536 <=? cp) && (cp <=? 1114111))%Z
                then Some (cp, r3) else None
            | _, _, _ => None
            end
        | _ => None
        end
      else None
  end.

(** The decimal digits of Unicode 14.0 (general category Nd): 66 runs of
    ten code points, given by their first one, the digit zero. *)
Definition decimal_zeros : list Z :=
  [48; 1632; 1776; 1984; 2406; 2534; 2662; 2790; 2918; 3046; 3174; 3302;
   3430; 3558; 3664; 3792; 3872; 4160; 4240; 6112; 6160; 6470; 6608; 6784;
   6800; 6992; 7088; 7232; 7248; 42528; 43216; 43264; 43472; 43504; 43600;
   44016; 65296; 66720; 68912; 69734; 69872; 69942; 70096; 70384; 70736;
   70864; 71248; 71360; 71472; 71904; 72016; 72784; 73040; 73120; 92768;
   92864; 93008; 120782; 120792; 120802; 120812; 120822; 123200; 123632;
   125264; 130032]%Z.

(** The decimal value of a code point, when it is a decimal digit. *)
Definition decimal_value (cp : Z) : option Z :=
  match find (fun z => ((z <=? cp) && (cp <? z + 10))%Z) decimal_zeros with
  | Some z => Some (cp - z)%Z
  | None => None
  end.

(** [\d]: one decimal digit at the head of the text. *)
Definition match_digit (s : string) : option (Z * string) :=
  match head_code_point s with
  | Some (cp, rest) =>
      match decimal_value cp with
      | Some v => Some (v, rest)
      | None => None
      end
  | None => None
  end.

Definition digit_val (c : ascii) : Z := Z.of_nat (nat_of_ascii c) - 48.

Definition in_range (lo hi : nat) (c : ascii) : bool :=
  ((lo <=? nat_of_ascii c) && (nat_of_ascii c <=? hi))%nat.

(** [%Y]: four digits. *)
Definition group_Y (s : string) : list (Z * string) :=
  match match_digit s with
  | Some (a, s1) =>
      match match_digit s1 with
      | Some (b, s2) =>
          match match_digit s2 with
          | Some (c, s3) =>
              match match_digit s3 with
              | Some (d, s4) => [((1000 * a + 100 * b + 10 * c + d)%Z, s4)]
              | None => []
              end
          | None => []
          end
      | None => []
      end
  | None => []
  end.

(** [%m]: [1[0-2]|0[1-9]|[1-9]]. *)
Definition group_m (s : string) : list (Z * string) :=
  match s with
  | String a rest1 =>
      (match rest1 with
       | String b rest2 =>
           (if Ascii.eqb a "1" && in_range 48 50 b
            then [((10 + digit_val b)%Z, rest2)] else [])
           ++ (if Ascii.eqb a "0" && in_range 49 57 b
               then [(digit_val b, rest2)] else [])
       | EmptyString => []
       end)
      ++ (if in_range 49 57 a then [(digit_val a, rest1)] else [])
  | EmptyString => []
  end.

(** [%d]: [3[0-1]|[1-2]\d|0[1-9]|[1-9]| [1-9]]. *)
Definition group_d (s : string) : list (Z * string) :=
  match s with
  | String a rest1 =>
      (match rest1 with
       | String b rest2 =>
           if Ascii.eqb a "3" && in_range 48 49 b
           then [((30 + digit_val b)%Z, rest2)] else []
       | EmptyString => []
       end)
      ++ (if in_range 49 50 a
          then match match_digit rest1 with
               | Some (v, rest2) => [((10 * digit_val a + v)%Z, rest2)]
               | None => []
               end
          else [])
      ++ (match rest1 with
          | String b rest2 =>
              if Ascii.eqb a "0" && in_range 49 57 b
              then [(digit_val b, rest2)] else []
          | EmptyString => []
          end)
      ++ (if in_range 49 57 a then [(digit_val a, rest1)] else [])
      ++ (match rest1 with
          | String b rest2 =>
              if Ascii.eqb a " " && in_range 49 57 b
              then [(digit_val b, rest2)] else []
          | EmptyString => []
          end)
  | EmptyString => []
  end.

(** The literal [-] of the format. *)
Definition lit_dash (s : string) : list string :=
  match s with
  | String a rest => if Ascii.eqb a "-" then [rest] else []
  | EmptyString => []
  end.

(** The matches of [-(%m)-(%d)], in backtracking order. *)
Definition month_day_matches (s1 : string) : list (Z * Z * string) :=
  flat_map (fun s2 =>
    flat_map (fun '(m, s3) =>
      flat_map (fun s4 =>
        map (fun '(d, s5) => (m, d, s5)) (group_d s4))
        (lit_dash s3))
      (group_m s2))
    (lit_dash s1).

(** All the matches of the whole expression, in backtracking order:
    [re.match] returns the first. *)
Definition regex_matches (s : string) : list (Z * Z * Z * string) :=
  flat_map (fun '(y, s1) =>
    map (fun '(m, d, s5) => (y, m, d, s5)) (month_day_matches s1))
    (group_Y s).

Definition is_leap (y : Z) : bool :=
  ((y mod 4 =? 0) && (negb (y mod 100 =? 0) || (y mod 400 =? 0)))%Z.

Definition days_in_month (y m : Z) : Z :=
  (if m =? 2 then (if is_leap y then 29 else 28)
   else if (m =? 4) || (m =? 6) || (m =? 9) || (m =? 11) then 30
   else 31)%Z.

(** The check of the constructor [datetime.date(y, m, d)]. *)
Definition valid_date (y m d : Z) : bool :=
  ((1 <=? y) && (y <=? 9999) && (1 <=? m) && (m <=? 12)
   && (1 <=? d) && (d <=? days_in_month y m))%Z.

Definition strptime_ymd (s : string) : result date :=
  match regex_matches s with
  | [] => Raise StrptimeValueError            (* does not match format *)
  | (y, m, d, rest) :: _ =>
      match rest with
      | String _ _ => Raise StrptimeValueError (* unconverted data remains *)
      | EmptyString =>
          if valid_date y m d then Return (mkdate y m d)
          else Raise StrptimeValueError        (* out of range *)
      end
  end.

(** [date.isoformat()]: the text [YYYY-MM-DD] of a date, zero-padded. *)
Definition digit_char (n : Z) : ascii := ascii_of_nat (Z.to_nat (48 + n)).

Definition two_digits (n : Z) : string :=
  String (digit_char (n / 10)) (String (digit_char (n mod 10)) EmptyString).

Definition month_day_text (m d : Z) : string :=
  String "-" (String.append (two_digits m) (String "-" (two_digits d))).

Definition isoformat (d : date) : string :=
  let y := year d in
  String (digit_char (y / 1000))
    (String (digit_char (y / 100 mod 10))
       (String (digit_char (y / 10 mod 10))
          (String (digit_char (y mod 10))
             (month_day_text (month d) (day d))))).

(** The check, by enumeration, that the tail [-MM-DD] of every month 1-12
    and day 1-31 is matched first as that month and day, with no text
    left. *)
Definition month_day_check : bool :=
  forallb (fun m =>
    forallb (fun d =>
      match month_day_matches (month_day_text m d) with
      | (m', d', EmptyString) :: _ => ((m' =? m) && (d' =? d))%Z
      | _ => false
      end)
      (map Z.of_nat (seq 1 31)))
    (map Z.of_nat (seq 1 12)).

(** ** The engine *)

Record PenmanEvaporation : Type := mkPenmanEvaporation {
  latitude_rad : R;
  elevation : R;
  albedo : R
}.

(** [PenmanEvaporation.__init__] (lines 27-38). *)
Definition __init__ (latitude_deg elevation albedo : R) : PenmanEvaporation :=
  mkPenmanEvaporation (math_radians latitude_deg) elevation albedo.

Definition default_elevation : R := 0.
Definition default_albedo : R := 0.08.
Definition default_wind_function : string := "penman1948".

(** The normalisation of the [date] argument (lines 104-105): text is
    parsed, a structured date is taken as it is. *)
Definition normalize_date (arg : date_arg) : result date :=
  match arg with
  | DateText s => strptime_ymd s
  | DateValue d => Return d
  end.

(** [PenmanEvaporation._calculate_ra_and_N] (lines 93-119). *)
Definition _calculate_ra_and_N (self : PenmanEvaporation) (date : date_arg)
  : result (R * R) :=
  date <- normalize_date date ;;
  let month := IZR (month date) in
  let phi := latitude_rad self in
  let N := 4 * phi * sin (0.53 * month - 1.65) + 12 in
  let Ra := if Rgt_dec (Rabs phi) (23.5 * PI / 180)
            then 3 * N * sin (0.131 * N - 0.95 * phi)
            else 118 * N ^ 2 * sin (0.131 * N - 0.2 * phi) in
  Return (Ra, N).

(** The coefficients of the wind function (lines 64-71). *)
Definition wind_coefficients (wind_function : string) : result (R * R) :=
  if String.eqb wind_function "penman1948" then Return (1, 0.536)
  else if String.eqb wind_function "penman1956" then Return (0.5, 0.536)
  else if String.eqb wind_function "linacre1993" then Return (0, 0.54)
  else Raise WindFunctionValueError.

(** The raw value [e_pen] of [calculate_daily_evaporation] (lines 59-89):
    everything before the final clamp. *)
Definition e_pen (self : PenmanEvaporation) (datetime_obj : date_arg)
    (t_mean rh_mean rs : R) (u : option R) (wind_function : string)
  : result R :=
  '(ra, N) <- _calculate_ra_and_N self datetime_obj ;;
  match u with
  | Some u =>
      '(a_u, b_u) <- wind_coefficients wind_function ;;
      root <- math_sqrt (t_mean + 9.5) ;;
      let term1 := 0.051 * (1 - albedo self) * rs * root in
      quot <- truediv rs ra ;;
      square <- float_pow2 quot ;;
      let term2 := 2.4 * square in
      let term3 := 0.052 * (t_mean + 20) * (1 - rh_mean / 100)
                   * (a_u - 0.38 + b_u * u) in
      let elevation_correction := 0.00012 * elevation self in
      Return (term1 - term2 + term3 + elevation_correction)
  | None =>
      root <- math_sqrt (t_mean + 9.5) ;;
      let term1 := 0.047 * rs * root in
      quot <- truediv rs ra ;;
      square <- float_pow2 quot ;;
      let term2 := 2.4 * square in
      let term3 := 0.09 * (t_mean + 20) * (1 - rh_mean / 100) in
      let elevation_correction := 0.00012 * elevation self in
      Return (term1 - term2 + term3 + elevation_correction)
  end.

(** [PenmanEvaporation.calculate_daily_evaporation] (lines 40-91). *)
Definition calculate_daily_evaporation (self : PenmanEvaporation)
    (datetime_obj : date_arg) (t_mean rh_mean rs : R) (u : option R)
    (wind_function : string) : result R :=
  e <- e_pen self datetime_obj t_mean rh_mean rs u wind_function ;;
  Return (max0 e).

(** ** The formulas of the specification

    Definitions that follow the words of the specification (sections 4.2
    and 4.3), to compare the code with. *)

(** The closed enumeration of wind functions and its table of
    coefficients. *)
Inductive WindFunction : Type := penman1948 | penman1956 | linacre1993.

Definition wind_name (w : WindFunction) : string :=
  match w with
  | penman1948 => "penman1948"
  | penman1956 => "penman1956"
  | linacre1993 => "linacre1993"
  end.

Definition spec_a_u (w : WindFunction) : R :=
  match w with penman1948 => 1 | penman1956 => 0.5 | linacre1993 => 0 end.

Definition spec_b_u (w : WindFunction) : R :=
  match w with penman1948 => 0.536 | penman1956 => 0.536 | linacre1993 => 0.54 end.

Definition recognized (wind_function : string) : Prop :=
  exists w, wind_function = wind_name w.

(** Daylight hours and the two zone formulas of the extraterrestrial
    radiation. *)
Definition spec_N (phi m : R) : R := 4 * phi * sin (0.53 * m - 1.65) + 12.

Definition spec_Ra_temperate (phi N : R) : R :=
  3 * N * sin (0.131 * N - 0.95 * phi).

Definition spec_Ra_tropical (phi N : R) : R :=
  118 * (N * N) * sin (0.131 * N - 0.2 * phi).

Definition tropic : R := 23.5 * PI / 180.

(** The raw value of the wind-aware branch. *)
Definition spec_e_pen_wind (albedo elevation t_mean rh_mean rs Ra a_u b_u u : R)
  : R :=
  0.051 * (1 - albedo) * rs * sqrt (t_mean + 9.5)
  - 2.4 * Rsqr (rs / Ra)
  + 0.052 * (t_mean + 20) * (1 - rh_mean / 100) * (a_u - 0.38 + b_u * u)
  + 0.00012 * elevation.

(** The raw value of the no-wind branch. *)
Definition spec_e_pen_nowind (elevation t_mean rh_mean rs Ra : R) : R :=
  0.047 * rs * sqrt (t_mean + 9.5)
  - 2.4 * Rsqr (rs / Ra)
  + 0.09 * (t_mean + 20) * (1 - rh_mean / 100)
  + 0.00012 * elevation.

(** The raw formula of the branch that [u] selects. *)
Definition branch_formula (self : PenmanEvaporation)
    (t_mean rh_mean rs Ra : R) (u : option R) (wind_function : string)
    (raw : R) : Prop :=
  match u with
  | Some u =>
      exists w, wind_function = wind_name w
        /\ raw = spec_e_pen_wind (albedo self) (elevation self) t_mean rh_mean
                   rs Ra (spec_a_u w) (spec_b_u w) u
  | None =>
      raw = spec_e_pen_nowind (elevation self) t_mean rh_mean rs Ra
  end.

(** The site of the example run of [main.py]. *)
Definition soreq : PenmanEvaporation := __init__ 31.96 30 0.08.

(** The radiation sub-model at that site in month [m], by the formulas of
    the specification. *)
Definition soreq_N (m : Z) : R := spec_N (latitude_rad soreq) (IZR m).
Definition soreq_Ra (m : Z) : R :=
  spec_Ra_temperate (latitude_rad soreq) (soreq_N m).

(** A latitude at which the July daylight hours [N], and with them [Ra],
    come out as exactly 0.  It lies outside the physical range of
    latitudes; the constructor validates nothing. *)
Definition zero_radiation_latitude_deg : R :=
  - (3 / sin 2.06) * (180 / PI).

(** ** The driver of [main.py]

    One row of the daily table that [data_preparation] returns: its index
    [name] (a timestamp, a structured date for the engine) and its
    columns.  The columns are reals: a day whose means are missing is out
    of the model. *)
Record row : Type := mkrow {
  name : date;
  temperature : R;
  global_radiation : R;
  precipitation : R;
  relative_humidity : R;
  wind_speed : R
}.

(** The calculator of the example run (main.py, line 112). *)
Definition penman : PenmanEvaporation := __init__ 31.96 30 0.08.

(** [calculate_row_evaporation] (main.py, lines 115-122): the wind
    function is left to its default. *)
Definition calculate_row_evaporation (r : row) : result R :=
  calculate_daily_evaporation penman (DateValue (name r))
    (temperature r) (relative_humidity r) (global_radiation r)
    (Some (wind_speed r)) default_wind_function.

(** The places a call of [calculate_daily_evaporation] can end in, and the
    conditions of each, in the order of the checks of the code: the date,
    the wind function (only when wind speed is present), the square root,
    the division, the square. *)
Inductive outcome (self : PenmanEvaporation) (a : date_arg)
    (t_mean rs : R) (u : option R) (wind_function : string)
  : result R -> Prop :=
| outcome_format (e : exn) :
    normalize_date a = Raise e ->
    outcome self a t_mean rs u wind_function (Raise StrptimeValueError)
| outcome_wind (Ra N v : R) :
    _calculate_ra_and_N self a = Return (Ra, N) ->
    u = Some v -> ~ recognized wind_function ->
    outcome self a t_mean rs u wind_function (Raise WindFunctionValueError)
| outcome_sqrt (Ra N : R) :
    _calculate_ra_and_N self a = Return (Ra, N) ->
    u = None \/ recognized wind_function ->
    t_mean + 9.5 < 0 ->
    outcome self a t_mean rs u wind_function (Raise MathDomainError)
| outcome_div (N : R) :
    _calculate_ra_and_N self a = Return (0, N) ->
    u = None \/ recognized wind_function ->
    0 <= t_mean + 9.5 ->
    outcome self a t_mean rs u wind_function (Raise ZeroDivisionError)
| outcome_pow (Ra N : R) :
    _calculate_ra_and_N self a = Return (Ra, N) ->
    u = None \/ recognized wind_function ->
    0 <= t_mean + 9.5 ->
    Ra <> 0 ->
    pow2_overflows (rs / Ra) ->
    outcome self a t_mean rs u wind_function (Raise OverflowError)
| outcome_return (Ra N v : R) :
    _calculate_ra_and_N self a = Return (Ra, N) ->
    u = None \/ recognized wind_function ->
    0 <= t_mean + 9.5 ->
    Ra <> 0 ->
    ~ pow2_overflows (rs / Ra) ->
    outcome self a t_mean rs u wind_function (Return v).

(** ** The text form [YYYY-MM-DD]

    Following the words of the specification: four digits, a dash, two
    digits, a dash, two digits, and nothing else. *)
Definition ascii_digit (c : ascii) : bool := in_range 48 57 c.

Definition iso_shape (s : string) : bool :=
  match s with
  | String y1 (String y2 (String y3 (String y4 (String d1
      (String m1 (String m2 (String d2 (String e1 (String e2
         EmptyString))))))))) =>
      ascii_digit y1 && ascii_digit y2 && ascii_digit y3 && ascii_digit y4
      && Ascii.eqb d1 "-" && ascii_digit m1 && ascii_digit m2
      && Ascii.eqb d2 "-" && ascii_digit e1 && ascii_digit e2
  | _ => false
  end.

(** The text [2025-07-1] followed by the Arabic-Indic digit five (U+0665,
    the bytes D9 A5). *)
Definition text_with_arabic_indic_five : string :=
  String.append "2025-07-1"
    (String (ascii_of_nat 217) (String (ascii_of_nat 165) EmptyString)).

(** ** The formula in binary64

    Lines 74-80 and 83-89 replayed in IEEE binary64, operation by
    operation in Python's order, on the value [ra] that the radiation
    sub-model returned; the square of the quotient is its correctly rounded
    product. *)
Module Binary64.
Import Floats.
#[local] Set Warnings "-inexact-float".
#[local] Open Scope float_scope.

Definition e_pen_wind (albedo elevation t_mean rh_mean rs ra a_u b_u u : float)
  : float :=
  let term1 := 0.051 * (1 - albedo) * rs * sqrt (t_mean + 9.5) in
  let quot := rs / ra in
  let term2 := 2.4 * (quot * quot) in
  let term3 := 0.052 * (t_mean + 20) * (1 - rh_mean / 100)
               * (a_u - 0.38 + b_u * u) in
  let elevation_correction := 0.00012 * elevation in
  term1 - term2 + term3 + elevation_correction.


(** The radiation [Ra] that the sub-model returns at latitude 31.96 in
    July, 40.38235707564107. *)
Definition soreq_july_ra : float := 0x1.430f1139fa2e4p+5.

End Binary64.

(** ** Sanity checks of the date parser *)

Example strptime_iso :
  strptime_ymd "2025-07-15" = Return (mkdate 2025 7 15).
Proof. reflexivity. Qed.

Example strptime_unpadded :
  strptime_ymd "2025-7-5" = Return (mkdate 2025 7 5).
Proof. reflexivity. Qed.

Example strptime_day_first :
  strptime_ymd "15-07-2025" = Raise StrptimeValueError.
Proof. reflexivity. Qed.

Example strptime_feb_30 :
  strptime_ymd "2025-02-30" = Raise StrptimeValueError.
Proof. reflexivity. Qed.

Example strptime_trailing :
  strptime_ymd "2025-07-155" = Raise StrptimeValueError.
Proof. reflexivity. Qed.

Example strptime_space_day :
  strptime_ymd "2025-07- 5" = Return (mkdate 2025 7 5).
Proof. reflexivity. Qed.

Example strptime_arabic_indic_day :
  strptime_ymd text_with_arabic_indic_five = Return (mkdate 2025 7 15).
Proof. reflexivity. Qed.

Example strptime_non_ascii_month :
  strptime_ymd
    (String.append "2025-0"
       (String (ascii_of_nat 217) (String (ascii_of_nat 167) "-15")))
  = Raise StrptimeValueError.
Proof. reflexivity. Qed.

(** ** Basic facts about the primitives *)

Lemma max0_Rmax (x : R) : max0 x = Rmax 0 x.
Proof.
  unfold max0, Rmax.
  destruct (Rgt_dec x 0) as [Hgt | Hle]; destruct (Rle_dec 0 x) as [H0 | H0];
    lra.
Qed.

Lemma max0_nonneg (x : R) : 0 <= max0 x.
Proof. unfold max0. destruct (Rgt_dec x 0); lra. Qed.

Lemma max0_of_nonpos (x : R) : x <= 0 -> max0 x = 0.
Proof. intros Hx. unfold max0. destruct (Rgt_dec x 0); lra. Qed.

Lemma max0_of_nonneg (x : R) : 0 <= x -> max0 x = x.
Proof. intros Hx. unfold max0. destruct (Rgt_dec x 0); lra. Qed.

Lemma math_sqrt_ok (x : R) : 0 <= x -> math_sqrt x = Return (sqrt x).
Proof. intros Hx. unfold math_sqrt. destruct (Rlt_dec x 0); [lra | reflexivity]. Qed.

Lemma math_sqrt_neg (x : R) : x < 0 -> math_sqrt x = Raise MathDomainError.
Proof. intros Hx. unfold math_sqrt. destruct (Rlt_dec x 0); [reflexivity | lra]. Qed.

Lemma truediv_ok (x y : R) : y <> 0 -> truediv x y = Return (x / y).
Proof. intros Hy. unfold truediv. destruct (Req_EM_T y 0); [contradiction | reflexivity]. Qed.

Lemma truediv_zero (x : R) : truediv x 0 = Raise ZeroDivisionError.
Proof. unfold truediv. destruct (Req_EM_T 0 0); [reflexivity | contradiction]. Qed.

Lemma float_max_bounds : 1e300 < float_max < 1e309.
Proof.
  unfold float_max.
  let v := eval vm_compute in float_max_Z in change float_max_Z with v.
  split; lra.
Qed.

Lemma float_pow2_ok (x : R) :
  ~ pow2_overflows x -> float_pow2 x = Return (x ^ 2).
Proof.
  intros Hno. unfold float_pow2.
  destruct (Rlt_dec float_max (x ^ 2)) as [Hbig |]; [| reflexivity].
  destruct (Rle_dec (Rabs x) float_max) as [Hfin |]; [| reflexivity].
  exfalso. apply Hno. split; assumption.
Qed.

Lemma float_pow2_overflow (x : R) :
  pow2_overflows x -> float_pow2 x = Raise OverflowError.
Proof.
  intros [Hbig Hfin]. unfold float_pow2.
  destruct (Rlt_dec float_max (x ^ 2)); [| contradiction].
  destruct (Rle_dec (Rabs x) float_max); [reflexivity | contradiction].
Qed.

Lemma pow2_overflows_dec (x : R) : {pow2_overflows x} + {~ pow2_overflows x}.
Proof.
  unfold pow2_overflows.
  destruct (Rlt_dec float_max (x ^ 2)) as [Hbig | Hsmall];
    [| right; intros [H _]; contradiction].
  destruct (Rle_dec (Rabs x) float_max) as [Hfin | Hinf];
    [left; split; assumption | right; intros [_ H]; contradiction].
Qed.

(** A square within the range of binary64 does not overflow. *)
Lemma square_in_range (x : R) : Rsqr x <= float_max -> ~ pow2_overflows x.
Proof.
  intros Hx [Hbig _]. unfold Rsqr in Hx. simpl in Hbig. lra.
Qed.

Lemma small_square_in_range (x : R) : Rabs x <= 1e150 -> Rsqr x <= float_max.
Proof.
  intros Hx. pose proof float_max_bounds as [Hlo _].
  rewrite (Rsqr_abs x). pose proof (Rabs_pos x) as Hpos.
  unfold Rsqr. assert (Rabs x * Rabs x <= 1e150 * 1e150) by nra. lra.
Qed.

(** Dividing by a number of at least 1 does not raise the magnitude. *)
Lemma quotient_magnitude (x y bound : R) :
  1 <= y -> Rabs x <= bound -> Rabs (x / y) <= bound.
Proof.
  intros Hy Hx. unfold Rdiv. rewrite Rabs_mult.
  rewrite (Rabs_right (/ y)).
  2:{ apply Rle_ge. left. apply Rinv_0_lt_compat. lra. }
  pose proof (Rabs_pos x) as Hpos.
  assert (Hinv : / y <= 1).
  { rewrite <- Rinv_1. apply Rinv_le_contravar; lra. }
  assert (Hinv0 : 0 < / y) by (apply Rinv_0_lt_compat; lra).
  nra.
Qed.

Lemma fails_not_returns {A : Type} (m : result A) (k : ErrorKind) :
  fails_with m k -> ~ returns_value m.
Proof. intros [e [He _]] [a Ha]. congruence. Qed.

Lemma fails_with_unique {A : Type} (m : result A) (k1 k2 : ErrorKind) :
  fails_with m k1 -> fails_with m k2 -> k1 = k2.
Proof. intros [e1 [H1 K1]] [e2 [H2 K2]]. congruence. Qed.

Lemma raise_fails_with {A : Type} (e : exn) :
  fails_with (@Raise A e) (error_kind e).
Proof. exists e. split; reflexivity. Qed.

(** ** The wind-function table *)

Lemma wind_coefficients_name (w : WindFunction) :
  wind_coefficients (wind_name w) = Return (spec_a_u w, spec_b_u w).
Proof. destruct w; reflexivity. Qed.

Lemma wind_coefficients_unrecognized (wind_function : string) :
  ~ recognized wind_function ->
  wind_coefficients wind_function = Raise WindFunctionValueError.
Proof.
  intros Hn. unfold wind_coefficients.
  destruct (String.eqb_spec wind_function "penman1948") as [E | _].
  { exfalso. apply Hn. exists penman1948. exact E. }
  destruct (String.eqb_spec wind_function "penman1956") as [E | _].
  { exfalso. apply Hn. exists penman1956. exact E. }
  destruct (String.eqb_spec wind_function "linacre1993") as [E | _].
  { exfalso. apply Hn. exists linacre1993. exact E. }
  reflexivity.
Qed.

Lemma wind_coefficients_cases (wind_function : string) :
  (exists w, wind_function = wind_name w
     /\ wind_coefficients wind_function = Return (spec_a_u w, spec_b_u w))
  \/ (~ recognized wind_function
      /\ wind_coefficients wind_function = Raise WindFunctionValueError).
Proof.
  unfold wind_coefficients.
  destruct (String.eqb_spec wind_function "penman1948") as [E | N1].
  { left. exists penman1948. split; [exact E | reflexivity]. }
  destruct (String.eqb_spec wind_function "penman1956") as [E | N2].
  { left. exists penman1956. split; [exact E | reflexivity]. }
  destruct (String.eqb_spec wind_function "linacre1993") as [E | N3].
  { left. exists linacre1993. split; [exact E | reflexivity]. }
  right. split; [| reflexivity].
  intros [w Hw]. destruct w; simpl in Hw; congruence.
Qed.

(** ** The date parser *)

Lemma strptime_ymd_valid (s : string) (d : date) :
  strptime_ymd s = Return d ->
  valid_date (year d) (month d) (day d) = true.
Proof.
  unfold strptime_ymd.
  destruct (regex_matches s) as [| [[[y m] dd] rest] tl]; [discriminate |].
  destruct rest; [| discriminate].
  destruct (valid_date y m dd) eqn:Hv; [| discriminate].
  intros H. injection H as H. subst d. exact Hv.
Qed.

Lemma strptime_ymd_month (s : string) (d : date) :
  strptime_ymd s = Return d -> (1 <= month d <= 12)%Z.
Proof.
  intros H. apply strptime_ymd_valid in H. unfold valid_date in H.
  repeat (apply andb_prop in H; destruct H as [H ?]).
  split; apply Z.leb_le; assumption.
Qed.

Lemma strptime_ymd_raises (s : string) (e : exn) :
  strptime_ymd s = Raise e -> e = StrptimeValueError.
Proof.
  unfold strptime_ymd.
  destruct (regex_matches s) as [| [[[y m] dd] rest] tl]; [congruence |].
  destruct rest; [| congruence].
  destruct (valid_date y m dd); congruence.
Qed.

Lemma match_digit_char (n : Z) (rest : string) :
  (0 <= n <= 9)%Z ->
  match_digit (String (digit_char n) rest) = Some (n, rest).
Proof.
  intros Hn.
  assert (Hcases : n = 0%Z \/ n = 1%Z \/ n = 2%Z \/ n = 3%Z \/ n = 4%Z
                   \/ n = 5%Z \/ n = 6%Z \/ n = 7%Z \/ n = 8%Z \/ n = 9%Z)
    by lia.
  repeat (destruct Hcases as [-> | Hcases]; [reflexivity |]).
  subst n. reflexivity.
Qed.

Lemma group_Y_digits (a b c e : Z) (rest : string) :
  (0 <= a <= 9)%Z -> (0 <= b <= 9)%Z -> (0 <= c <= 9)%Z -> (0 <= e <= 9)%Z ->
  group_Y (String (digit_char a) (String (digit_char b)
             (String (digit_char c) (String (digit_char e) rest))))
  = [((1000 * a + 100 * b + 10 * c + e)%Z, rest)].
Proof.
  intros Ha Hb Hc He. unfold group_Y.
  rewrite (match_digit_char a _ Ha), (match_digit_char b _ Hb),
          (match_digit_char c _ Hc), (match_digit_char e _ He).
  reflexivity.
Qed.

Lemma month_day_check_true : month_day_check = true.
Proof. vm_compute. reflexivity. Qed.

Lemma in_Z_range (n : nat) (x : Z) :
  (1 <= x <= Z.of_nat n)%Z -> In x (map Z.of_nat (seq 1 n)).
Proof.
  intros Hx. apply in_map_iff. exists (Z.to_nat x). split; [lia |].
  apply in_seq. lia.
Qed.

Lemma month_day_matches_text (m d : Z) :
  (1 <= m <= 12)%Z -> (1 <= d <= 31)%Z ->
  exists tl, month_day_matches (month_day_text m d) = (m, d, EmptyString) :: tl.
Proof.
  intros Hm Hd.
  pose proof month_day_check_true as Hall. unfold month_day_check in Hall.
  rewrite forallb_forall in Hall.
  specialize (Hall m (in_Z_range 12 m Hm)).
  rewrite forallb_forall in Hall.
  specialize (Hall d (in_Z_range 31 d Hd)).
  destruct (month_day_matches (month_day_text m d))
    as [| [[m' d'] rest] tl]; [discriminate |].
  destruct rest; [| discriminate].
  apply andb_prop in Hall. destruct Hall as [Em Ed].
  apply Z.eqb_eq in Em. apply Z.eqb_eq in Ed. subst m' d'.
  exists tl. reflexivity.
Qed.

Lemma days_in_month_le_31 (y m : Z) : (days_in_month y m <= 31)%Z.
Proof.
  unfold days_in_month.
  destruct (m =? 2)%Z; [destruct (is_leap y); lia |].
  destruct ((m =? 4) || (m =? 6) || (m =? 9) || (m =? 11))%Z; lia.
Qed.

(** A valid date written as [YYYY-MM-DD] is parsed back to itself. *)
Lemma strptime_isoformat (y m d : Z) :
  valid_date y m d = true ->
  strptime_ymd (isoformat (mkdate y m d)) = Return (mkdate y m d).
Proof.
  intros Hv. pose proof Hv as Hvalid. unfold valid_date in Hv.
  repeat (apply andb_prop in Hv; destruct Hv as [Hv ?]).
  repeat match goal with
         | H : (_ <=? _)%Z = true |- _ => apply Z.leb_le in H
         end.
  pose proof (days_in_month_le_31 y m) as Hdm.
  destruct (month_day_matches_text m d) as [tl Htl]; [lia | lia |].
  unfold strptime_ymd, regex_matches, isoformat. cbn [year month day].
  rewrite group_Y_digits;
    [| Z.div_mod_to_equations; lia | Z.div_mod_to_equations; lia
     | Z.div_mod_to_equations; lia | Z.div_mod_to_equations; lia].
  cbn [flat_map]. rewrite Htl. cbn [map app].
  replace (1000 * (y / 1000) + 100 * (y / 100 mod 10)
           + 10 * (y / 10 mod 10) + y mod 10)%Z with y
    by (Z.div_mod_to_equations; lia).
  rewrite Hvalid. reflexivity.
Qed.

Lemma ascii_digit_char (n : Z) :
  (0 <= n <= 9)%Z -> ascii_digit (digit_char n) = true.
Proof.
  intros Hn.
  assert (Hcases : n = 0%Z \/ n = 1%Z \/ n = 2%Z \/ n = 3%Z \/ n = 4%Z
                   \/ n = 5%Z \/ n = 6%Z \/ n = 7%Z \/ n = 8%Z \/ n = 9%Z)
    by lia.
  repeat (destruct Hcases as [-> | Hcases]; [reflexivity |]).
  subst n. reflexivity.
Qed.

(** The text of a valid date has the form YYYY-MM-DD. *)
Lemma isoformat_shape (y m d : Z) :
  valid_date y m d = true -> iso_shape (isoformat (mkdate y m d)) = true.
Proof.
  intros Hv. unfold valid_date in Hv.
  repeat (apply andb_prop in Hv; destruct Hv as [Hv ?]).
  repeat match goal with
         | H : (_ <=? _)%Z = true |- _ => apply Z.leb_le in H
         end.
  pose proof (days_in_month_le_31 y m) as Hdm.
  unfold isoformat, month_day_text, two_digits, iso_shape.
  cbn [year month day String.append].
  rewrite !ascii_digit_char by (Z.div_mod_to_equations; lia).
  reflexivity.
Qed.

(** ** The radiation sub-model *)

Lemma calculate_ra_and_N_value (self : PenmanEvaporation) (a : date_arg) (d : date) :
  normalize_date a = Return d ->
  _calculate_ra_and_N self a =
  Return (if Rgt_dec (Rabs (latitude_rad self)) tropic
          then spec_Ra_temperate (latitude_rad self)
                 (spec_N (latitude_rad self) (IZR (month d)))
          else spec_Ra_tropical (latitude_rad self)
                 (spec_N (latitude_rad self) (IZR (month d))),
          spec_N (latitude_rad self) (IZR (month d))).
Proof.
  intros Hd. unfold _calculate_ra_and_N. rewrite Hd. cbn [bind].
  unfold tropic, spec_Ra_temperate, spec_Ra_tropical, spec_N.
  destruct (Rgt_dec (Rabs (latitude_rad self)) (23.5 * PI / 180));
    do 2 f_equal; simpl; ring.
Qed.

Lemma calculate_ra_and_N_raise (self : PenmanEvaporation) (a : date_arg) (e : exn) :
  normalize_date a = Raise e -> _calculate_ra_and_N self a = Raise e.
Proof. intros Hd. unfold _calculate_ra_and_N. rewrite Hd. reflexivity. Qed.

Lemma calculate_ra_and_N_site (self1 self2 : PenmanEvaporation) (a : date_arg) :
  latitude_rad self1 = latitude_rad self2 ->
  _calculate_ra_and_N self1 a = _calculate_ra_and_N self2 a.
Proof. intros H. unfold _calculate_ra_and_N. rewrite H. reflexivity. Qed.

Lemma PI_bounds : 3 < PI <= 4.
Proof. split; [pose proof PI2_3_2; lra | exact PI_4]. Qed.

(** Between the tropic and 45 degrees of northern latitude the temperate
    formula gives a positive radiation, at most 48, in every month. *)
Lemma Ra_mid_latitudes (latitude_deg m : R) :
  23.5 < latitude_deg <= 45 ->
  let phi := math_radians latitude_deg in
  Rabs phi > tropic /\ 0 < spec_Ra_temperate phi (spec_N phi m) <= 48.
Proof.
  intros [Hlo Hhi] phi.
  pose proof PI_bounds as [Hpi3 Hpi4].
  assert (Hphi : tropic < phi <= 1).
  { unfold phi, math_radians, tropic. split; nra. }
  assert (Htr : 0 < tropic) by (unfold tropic; lra).
  split.
  { rewrite Rabs_right by lra. lra. }
  unfold spec_Ra_temperate, spec_N.
  set (s := sin (0.53 * m - 1.65)).
  assert (Hs : -1 <= s <= 1) by apply SIN_bound.
  set (N := 4 * phi * s + 12).
  assert (HN : 12 - 4 * phi <= N <= 12 + 4 * phi) by (unfold N; split; nra).
  set (x := 0.131 * N - 0.95 * phi).
  assert (Hx : 0 < x < PI) by (unfold x; split; lra).
  assert (Hsin : 0 < sin x <= 1).
  { split; [apply sin_gt_0; lra | apply SIN_bound]. }
  split; nra.
Qed.

Lemma product_with_sine (p s : R) :
  -1 <= s <= 1 ->
  (0 <= p -> - p <= p * s <= p) /\ (p <= 0 -> p <= p * s <= - p).
Proof. intros [Hlo Hhi]. split; intros Hp; split; nra. Qed.

Lemma sin_lower_cubic (x : R) : 0 <= x -> x <= PI -> x - x ^ 3 / 6 <= sin x.
Proof.
  intros H0 H1.
  destruct (sin_bound x 0 H0 H1) as [Hlo _].
  unfold sin_approx, sin_term in Hlo. simpl in Hlo.
  apply Rle_trans with (2 := Hlo).
  apply Req_le. simpl. field.
Qed.

Lemma sin_lower_linear (x : R) : 0 <= x <= 1.572 -> 0.58 * x <= sin x.
Proof.
  intros [H0 H1].
  pose proof PI_bounds as [HPI _].
  assert (Hpi : x <= PI) by lra.
  pose proof (sin_lower_cubic x H0 Hpi) as H.
  assert (Hcube : x ^ 3 <= 2.48 * x).
  { simpl. assert (x * x <= 2.48) by nra. nra. }
  lra.
Qed.

(** In the same band of latitudes the radiation is at least 1. *)
Lemma Ra_mid_latitudes_lower (latitude_deg m : R) :
  23.5 < latitude_deg <= 45 ->
  let phi := math_radians latitude_deg in
  1 <= spec_Ra_temperate phi (spec_N phi m).
Proof.
  intros [Hlo Hhi] phi.
  pose proof PI_bounds as [Hpi3 Hpi4].
  assert (Hphi : 0 < phi <= 1).
  { unfold phi, math_radians. split; nra. }
  unfold spec_Ra_temperate, spec_N.
  pose proof (SIN_bound (0.53 * m - 1.65)) as Hs.
  destruct (product_with_sine phi (sin (0.53 * m - 1.65)) Hs) as [Hpos _].
  assert (Hp0 : 0 <= phi) by lra. specialize (Hpos Hp0).
  set (N := 4 * phi * sin (0.53 * m - 1.65) + 12).
  assert (HN : 8 <= N <= 16) by (unfold N; split; lra).
  set (x := 0.131 * N - 0.95 * phi).
  assert (Hx : 0.098 <= x <= 1.572) by (unfold x, N; split; lra).
  assert (Hsin : 0.05 <= sin x).
  { pose proof (sin_lower_linear x ltac:(lra)). lra. }
  assert (H3N : 24 <= 3 * N) by lra.
  assert (Hprod : 24 * 0.05 <= 3 * N * sin x).
  { apply Rmult_le_compat; lra. }
  lra.
Qed.

Lemma soreq_radiation (s : string) (yy mm dd : Z) :
  normalize_date (DateText s) = Return (mkdate yy mm dd) ->
  _calculate_ra_and_N soreq (DateText s) = Return (soreq_Ra mm, soreq_N mm)
  /\ 0 < soreq_Ra mm <= 48.
Proof.
  intros Hd.
  destruct (Ra_mid_latitudes 31.96 (IZR mm)) as [Hzone Hra]; [lra |].
  split.
  - rewrite (calculate_ra_and_N_value soreq _ _ Hd).
    change (latitude_rad soreq) with (math_radians 31.96).
    destruct (Rgt_dec (Rabs (math_radians 31.96)) tropic) as [_ | Hn];
      [reflexivity | contradiction].
  - exact Hra.
Qed.

Lemma soreq_call (s : string) (yy mm dd : Z) (rs : R) :
  normalize_date (DateText s) = Return (mkdate yy mm dd) ->
  Rabs rs <= 1e150 ->
  _calculate_ra_and_N soreq (DateText s) = Return (soreq_Ra mm, soreq_N mm)
  /\ 1 <= soreq_Ra mm <= 48
  /\ Rsqr (rs / soreq_Ra mm) <= float_max.
Proof.
  intros Hd Hrs.
  destruct (soreq_radiation s yy mm dd Hd) as [Hra [_ Hhi]].
  pose proof (Ra_mid_latitudes_lower 31.96 (IZR mm)) as Hlo.
  assert (Hone : 1 <= soreq_Ra mm) by (apply Hlo; lra).
  split; [exact Hra | split; [split; assumption |]].
  apply small_square_in_range. apply quotient_magnitude; assumption.
Qed.

Lemma Rabs_22 : Rabs 22 <= 1e150.
Proof. rewrite Rabs_right; lra. Qed.

Lemma soreq_in_range (rs : R) (m : Z) :
  Rabs rs <= 1e150 -> ~ pow2_overflows (rs / soreq_Ra m).
Proof.
  intros Hrs. apply square_in_range. apply small_square_in_range.
  apply quotient_magnitude; [| exact Hrs].
  apply (Ra_mid_latitudes_lower 31.96 (IZR m)). lra.
Qed.

Lemma Rabs_small (x : R) : -1000 <= x <= 1000 -> Rabs x <= 1e150.
Proof. intros Hx. apply Rabs_le. lra. Qed.

(** ** The raw value [e_pen] *)

Lemma e_pen_wind_value (self : PenmanEvaporation) (a : date_arg)
    (t_mean rh_mean rs u Ra N : R) (w : WindFunction) :
  _calculate_ra_and_N self a = Return (Ra, N) ->
  Ra <> 0 -> 0 <= t_mean + 9.5 ->
  ~ pow2_overflows (rs / Ra) ->
  e_pen self a t_mean rh_mean rs (Some u) (wind_name w) =
  Return (spec_e_pen_wind (albedo self) (elevation self) t_mean rh_mean rs Ra
            (spec_a_u w) (spec_b_u w) u).
Proof.
  intros Hra Hnz Ht Hov. unfold e_pen. rewrite Hra. cbn [bind].
  rewrite wind_coefficients_name. cbn [bind].
  rewrite (math_sqrt_ok _ Ht). cbn [bind].
  rewrite (truediv_ok _ _ Hnz). cbn [bind].
  rewrite (float_pow2_ok _ Hov). cbn [bind].
  unfold spec_e_pen_wind, Rsqr. f_equal. simpl. ring.
Qed.

Lemma e_pen_nowind_value (self : PenmanEvaporation) (a : date_arg)
    (t_mean rh_mean rs Ra N : R) (wind_function : string) :
  _calculate_ra_and_N self a = Return (Ra, N) ->
  Ra <> 0 -> 0 <= t_mean + 9.5 ->
  ~ pow2_overflows (rs / Ra) ->
  e_pen self a t_mean rh_mean rs None wind_function =
  Return (spec_e_pen_nowind (elevation self) t_mean rh_mean rs Ra).
Proof.
  intros Hra Hnz Ht Hov. unfold e_pen. rewrite Hra. cbn [bind].
  rewrite (math_sqrt_ok _ Ht). cbn [bind].
  rewrite (truediv_ok _ _ Hnz). cbn [bind].
  rewrite (float_pow2_ok _ Hov). cbn [bind].
  unfold spec_e_pen_nowind, Rsqr. f_equal. simpl. ring.
Qed.

(** The square overflows: the call raises, in either branch. *)
Lemma e_pen_overflow (self : PenmanEvaporation) (a : date_arg)
    (t_mean rh_mean rs Ra N : R) (u : option R) (wind_function : string) :
  _calculate_ra_and_N self a = Return (Ra, N) ->
  u = None \/ recognized wind_function ->
  Ra <> 0 -> 0 <= t_mean + 9.5 ->
  pow2_overflows (rs / Ra) ->
  e_pen self a t_mean rh_mean rs u wind_function = Raise OverflowError.
Proof.
  intros Hra Hw Hnz Ht Hov. unfold e_pen. rewrite Hra. cbn [bind].
  destruct u as [u |].
  - destruct Hw as [Hu | [w ->]]; [discriminate |].
    rewrite wind_coefficients_name. cbn [bind].
    rewrite (math_sqrt_ok _ Ht). cbn [bind].
    rewrite (truediv_ok _ _ Hnz). cbn [bind].
    rewrite (float_pow2_overflow _ Hov). reflexivity.
  - rewrite (math_sqrt_ok _ Ht). cbn [bind].
    rewrite (truediv_ok _ _ Hnz). cbn [bind].
    rewrite (float_pow2_overflow _ Hov). reflexivity.
Qed.

(** Where [e_pen] returns: the sub-model returned a nonzero radiation, the
    square root was defined, the square was in range, and the value is the
    formula of the branch. *)
Lemma e_pen_returns_in_range (self : PenmanEvaporation) (a : date_arg)
    (t_mean rh_mean rs : R) (u : option R) (wind_function : string) (raw : R) :
  e_pen self a t_mean rh_mean rs u wind_function = Return raw ->
  exists Ra N,
    _calculate_ra_and_N self a = Return (Ra, N)
    /\ Ra <> 0 /\ 0 <= t_mean + 9.5
    /\ ~ pow2_overflows (rs / Ra)
    /\ branch_formula self t_mean rh_mean rs Ra u wind_function raw.
Proof.
  intros He.
  destruct (_calculate_ra_and_N self a) as [[Ra N] | e] eqn:Hra;
    [| unfold e_pen in He; rewrite Hra in He; discriminate].
  exists Ra, N.
  destruct (Rlt_dec (t_mean + 9.5) 0) as [Hneg | Hpos].
  { exfalso. unfold e_pen in He. rewrite Hra in He. cbn [bind] in He.
    rewrite (math_sqrt_neg _ Hneg) in He.
    destruct u; [destruct (wind_coefficients wind_function) as [[? ?] | ?] |];
      discriminate. }
  assert (Ht : 0 <= t_mean + 9.5) by lra.
  destruct (Req_EM_T Ra 0) as [Hz | Hnz].
  { exfalso. subst Ra. unfold e_pen in He. rewrite Hra in He. cbn [bind] in He.
    rewrite (math_sqrt_ok _ Ht), truediv_zero in He.
    destruct u; [destruct (wind_coefficients wind_function) as [[? ?] | ?] |];
      discriminate. }
  destruct (pow2_overflows_dec (rs / Ra)) as [Hov | Hov].
  { exfalso. unfold e_pen in He. rewrite Hra in He. cbn [bind] in He.
    destruct u; [destruct (wind_coefficients wind_function) as [[? ?] | ?] |];
      cbn [bind] in He; try discriminate;
      rewrite (math_sqrt_ok _ Ht) in He; cbn [bind] in He;
      rewrite (truediv_ok _ _ Hnz) in He; cbn [bind] in He;
      rewrite (float_pow2_overflow _ Hov) in He; discriminate. }
  repeat split; try assumption.
  destruct u as [u |]; simpl.
  - destruct (wind_coefficients_cases wind_function) as [[w [Hw _]] | [_ Hbad]].
    + exists w. split; [exact Hw |]. subst wind_function.
      rewrite (e_pen_wind_value _ _ _ _ _ _ _ _ _ Hra Hnz Ht Hov) in He.
      congruence.
    + exfalso. unfold e_pen in He. rewrite Hra in He. cbn [bind] in He.
      rewrite Hbad in He. discriminate.
  - rewrite (e_pen_nowind_value _ _ _ _ _ _ _ _ Hra Hnz Ht Hov) in He.
    congruence.
Qed.

Lemma e_pen_returns (self : PenmanEvaporation) (a : date_arg)
    (t_mean rh_mean rs : R) (u : option R) (wind_function : string) (raw : R) :
  e_pen self a t_mean rh_mean rs u wind_function = Return raw ->
  exists Ra N,
    _calculate_ra_and_N self a = Return (Ra, N)
    /\ Ra <> 0 /\ 0 <= t_mean + 9.5
    /\ branch_formula self t_mean rh_mean rs Ra u wind_function raw.
Proof.
  intros He.
  destruct (e_pen_returns_in_range _ _ _ _ _ _ _ _ He)
    as [Ra [N [Hra [Hnz [Ht [_ Hf]]]]]].
  exists Ra, N. repeat split; assumption.
Qed.

(** The final clamp. *)
Lemma calculate_daily_evaporation_clamp (self : PenmanEvaporation) (a : date_arg)
    (t_mean rh_mean rs : R) (u : option R) (wind_function : string) :
  calculate_daily_evaporation self a t_mean rh_mean rs u wind_function =
  match e_pen self a t_mean rh_mean rs u wind_function with
  | Return raw => Return (Rmax 0 raw)
  | Raise e => Raise e
  end.
Proof.
  unfold calculate_daily_evaporation, bind.
  destruct (e_pen self a t_mean rh_mean rs u wind_function);
    [rewrite max0_Rmax |]; reflexivity.
Qed.

Lemma max0_monotone (x y : R) : x <= y -> max0 x <= max0 y.
Proof.
  intros Hxy. unfold max0.
  destruct (Rgt_dec x 0); destruct (Rgt_dec y 0); lra.
Qed.

Lemma max0_difference (x y : R) :
  y <= x -> 0 <= max0 x - max0 y <= x - y.
Proof.
  intros Hxy. unfold max0.
  destruct (Rgt_dec x 0); destruct (Rgt_dec y 0); lra.
Qed.

(** The raw formulas, argument by argument. *)
Lemma spec_e_pen_wind_elevation (al h1 h2 t rh rs Ra a b u : R) :
  spec_e_pen_wind al h2 t rh rs Ra a b u
  - spec_e_pen_wind al h1 t rh rs Ra a b u = 0.00012 * (h2 - h1).
Proof. unfold spec_e_pen_wind. ring. Qed.

Lemma spec_e_pen_nowind_elevation (h1 h2 t rh rs Ra : R) :
  spec_e_pen_nowind h2 t rh rs Ra - spec_e_pen_nowind h1 t rh rs Ra
  = 0.00012 * (h2 - h1).
Proof. unfold spec_e_pen_nowind. ring. Qed.

Lemma spec_e_pen_wind_speed (al h t rh rs Ra a b u1 u2 : R) :
  spec_e_pen_wind al h t rh rs Ra a b u2
  - spec_e_pen_wind al h t rh rs Ra a b u1
  = 0.052 * (t + 20) * (1 - rh / 100) * (b * (u2 - u1)).
Proof. unfold spec_e_pen_wind. ring. Qed.

Lemma spec_e_pen_wind_coefficient (al h t rh rs Ra a1 a2 b1 b2 u : R) :
  spec_e_pen_wind al h t rh rs Ra a1 b1 u
  - spec_e_pen_wind al h t rh rs Ra a2 b2 u
  = 0.052 * (t + 20) * (1 - rh / 100) * (a1 - a2 + (b1 - b2) * u).
Proof. unfold spec_e_pen_wind. ring. Qed.

Lemma spec_e_pen_wind_albedo (al1 al2 h t rh rs Ra a b u : R) :
  spec_e_pen_wind al1 h t rh rs Ra a b u
  - spec_e_pen_wind al2 h t rh rs Ra a b u
  = 0.051 * (al2 - al1) * rs * sqrt (t + 9.5).
Proof. unfold spec_e_pen_wind. ring. Qed.

Lemma spec_e_pen_wind_humidity (al h t rh1 rh2 rs Ra a b u : R) :
  spec_e_pen_wind al h t rh1 rs Ra a b u
  - spec_e_pen_wind al h t rh2 rs Ra a b u
  = 0.052 * (t + 20) * ((rh2 - rh1) / 100) * (a - 0.38 + b * u).
Proof. unfold spec_e_pen_wind. field. Qed.

Lemma spec_e_pen_nowind_humidity (h t rh1 rh2 rs Ra : R) :
  spec_e_pen_nowind h t rh1 rs Ra - spec_e_pen_nowind h t rh2 rs Ra
  = 0.09 * (t + 20) * ((rh2 - rh1) / 100).
Proof. unfold spec_e_pen_nowind. field. Qed.

Lemma product3_nonneg (c A B W : R) :
  0 <= c -> 0 <= A -> 0 <= B -> 0 <= W -> 0 <= c * A * B * W.
Proof.
  intros Hc HA HB HW.
  apply Rmult_le_pos; [apply Rmult_le_pos; [apply Rmult_le_pos |] |];
    assumption.
Qed.

(** ** The claims *)

Lemma soreq_overflow (m : Z) : pow2_overflows (1e200 / soreq_Ra m).
Proof.
  pose proof (Ra_mid_latitudes 31.96 (IZR m)) as Hup.
  pose proof (Ra_mid_latitudes_lower 31.96 (IZR m)) as Hlo.
  assert (HRa : 1 <= soreq_Ra m <= 48).
  { split; [apply Hlo; lra | apply Hup; lra]. }
  pose proof float_max_bounds as [Hmin Hmax].
  assert (Hinv : / 48 <= / soreq_Ra m <= 1).
  { split; [apply Rinv_le_contravar; lra |].
    rewrite <- Rinv_1. apply Rinv_le_contravar; lra. }
  set (x := 1e200 / soreq_Ra m).
  assert (Hx : 1e200 / 48 <= x <= 1e200) by (unfold x, Rdiv; split; nra).
  split.
  - assert (Hsq : (1e200 / 48) * (1e200 / 48) <= x * x).
    { apply Rmult_le_compat; lra. }
    simpl. lra.
  - rewrite Rabs_right by lra. lra.
Qed.

(** C1, counterexample.  At the site of the example run in July, with wind
    speed present, the wind function penman1948, [t_mean = 28] and the
    nonzero [Ra] of the sub-model, a solar radiation of 1e200 makes the
    square [(rs / Ra) ** 2] overflow: the call raises [OverflowError] and
    returns no value. *)
Lemma C1_counterexample :
  _calculate_ra_and_N (__init__ 31.96 30 0.08) (DateText "2025-07-15")
    = Return (soreq_Ra 7, soreq_N 7)
  /\ soreq_Ra 7 <> 0
  /\ 0 <= 28 + 9.5
  /\ recognized "penman1948"
  /\ calculate_daily_evaporation (__init__ 31.96 30 0.08)
       (DateText "2025-07-15") 28 45 1e200 (Some 2.5) "penman1948"
     = Raise OverflowError.
Proof.
  destruct (soreq_call "2025-07-15" 2025 7 15 22 eq_refl Rabs_22)
    as [Hra [[Hlo Hhi] _]].
  assert (Hnz : soreq_Ra 7 <> 0) by lra.
  assert (Ht : 0 <= 28 + 9.5) by lra.
  assert (Hw : recognized "penman1948") by (exists penman1948; reflexivity).
  split; [exact Hra | split; [exact Hnz | split; [exact Ht | split]]];
    [exact Hw |].
  unfold calculate_daily_evaporation.
  rewrite (e_pen_overflow (__init__ 31.96 30 0.08)
             (DateText "2025-07-15") 28 45 1e200
             (soreq_Ra 7) (soreq_N 7) (Some 2.5) "penman1948" Hra
             (or_intror Hw) Hnz Ht (soreq_overflow 7)).
  reflexivity.
Qed.

(** C1, amended.  With wind speed present, a recognized wind function, a
    non-negative [t_mean + 9.5], a nonzero [Ra] from the radiation
    sub-model and a square [(rs / Ra)^2] within the range of binary64, the
    result is [max(0, term1 - term2 + term3 + correction)] with the
    coefficients [(a_u, b_u)] of the table: (1, 0.536) for penman1948,
    (0.5, 0.536) for penman1956, (0, 0.54) for linacre1993. *)
Theorem C1_wind_branch_result (latitude_deg elevation albedo : R)
    (date : date_arg) (t_mean rh_mean rs u Ra N : R) (w : WindFunction) :
  _calculate_ra_and_N (__init__ latitude_deg elevation albedo) date
    = Return (Ra, N) ->
  Ra <> 0 ->
  0 <= t_mean + 9.5 ->
  Rsqr (rs / Ra) <= float_max ->
  calculate_daily_evaporation (__init__ latitude_deg elevation albedo) date
    t_mean rh_mean rs (Some u) (wind_name w)
  = Return (Rmax 0
      (0.051 * (1 - albedo) * rs * sqrt (t_mean + 9.5)
       - 2.4 * Rsqr (rs / Ra)
       + 0.052 * (t_mean + 20) * (1 - rh_mean / 100)
         * (spec_a_u w - 0.38 + spec_b_u w * u)
       + 0.00012 * elevation))
  /\ (spec_a_u penman1948, spec_b_u penman1948) = (1, 0.536)
  /\ (spec_a_u penman1956, spec_b_u penman1956) = (0.5, 0.536)
  /\ (spec_a_u linacre1993, spec_b_u linacre1993) = (0, 0.54).
Proof.
  intros Hra Hnz Ht Hsq. split; [| repeat split].
  rewrite calculate_daily_evaporation_clamp.
  rewrite (e_pen_wind_value _ _ _ _ _ _ _ _ _ Hra Hnz Ht
             (square_in_range _ Hsq)).
  reflexivity.
Qed.

Lemma C1_wind_branch_result_witness :
  calculate_daily_evaporation (__init__ 31.96 30 0.08) (DateText "2025-07-15")
    28 45 22 (Some 2.5) "penman1948"
  = Return (Rmax 0
      (0.051 * (1 - 0.08) * 22 * sqrt (28 + 9.5)
       - 2.4 * Rsqr (22 / (soreq_Ra 7))
       + 0.052 * (28 + 20) * (1 - 45 / 100) * (1 - 0.38 + 0.536 * 2.5)
       + 0.00012 * 30)).
Proof.
  destruct (soreq_call "2025-07-15" 2025 7 15 22 eq_refl Rabs_22)
    as [Hra [[Hlo Hhi] Hsq]].
  apply (C1_wind_branch_result 31.96 30 0.08 (DateText "2025-07-15")
           28 45 22 2.5 (soreq_Ra 7) (soreq_N 7) penman1948).
  - exact Hra.
  - lra.
  - lra.
  - exact Hsq.
Defined.

(** C2. For a date of calendar month [m] the radiation sub-model returns
    [N = 4 phi sin(0.53 m - 1.65) + 12] and, when [|phi|] is strictly above
    23.5 degrees in radians, [Ra = 3 N sin(0.131 N - 0.95 phi)], otherwise
    [Ra = 118 N^2 sin(0.131 N - 0.2 phi)]; a latitude exactly on the
    boundary, such as that of an engine built at 23.5 degrees, takes the
    second formula. *)
Theorem C2_radiation_submodel (self : PenmanEvaporation) (datetime_obj : date_arg)
    (d : date) :
  normalize_date datetime_obj = Return d ->
  let phi := latitude_rad self in
  let m := IZR (month d) in
  let N := 4 * phi * sin (0.53 * m - 1.65) + 12 in
  (Rabs phi > 23.5 * PI / 180 ->
     _calculate_ra_and_N self datetime_obj
     = Return (3 * N * sin (0.131 * N - 0.95 * phi), N))
  /\ (Rabs phi <= 23.5 * PI / 180 ->
     _calculate_ra_and_N self datetime_obj
     = Return (118 * N ^ 2 * sin (0.131 * N - 0.2 * phi), N))
  /\ (forall elevation albedo, self = __init__ 23.5 elevation albedo ->
     _calculate_ra_and_N self datetime_obj
     = Return (118 * N ^ 2 * sin (0.131 * N - 0.2 * phi), N)).
Proof.
  intros Hd phi m N.
  assert (Hcode : _calculate_ra_and_N self datetime_obj
                  = Return (if Rgt_dec (Rabs phi) (23.5 * PI / 180)
                            then 3 * N * sin (0.131 * N - 0.95 * phi)
                            else 118 * N ^ 2 * sin (0.131 * N - 0.2 * phi), N)).
  { unfold _calculate_ra_and_N. rewrite Hd. reflexivity. }
  assert (Htropical : Rabs phi <= 23.5 * PI / 180 ->
            _calculate_ra_and_N self datetime_obj
            = Return (118 * N ^ 2 * sin (0.131 * N - 0.2 * phi), N)).
  { intros Hle. rewrite Hcode.
    destruct (Rgt_dec (Rabs phi) (23.5 * PI / 180)); [lra | reflexivity]. }
  split; [| split].
  - intros Hgt. rewrite Hcode.
    destruct (Rgt_dec (Rabs phi) (23.5 * PI / 180)); [reflexivity | lra].
  - exact Htropical.
  - intros elevation0 albedo0 Hself. apply Htropical.
    unfold phi. rewrite Hself. simpl. unfold math_radians.
    pose proof PI_bounds as [Hpi _].
    rewrite Rabs_right by nra. lra.
Qed.

Lemma C2_radiation_submodel_witness :
  let phi := 31.96 * (PI / 180) in
  let N := 4 * phi * sin (0.53 * 7 - 1.65) + 12 in
  _calculate_ra_and_N (__init__ 31.96 30 0.08) (DateText "2025-07-15")
  = Return (3 * N * sin (0.131 * N - 0.95 * phi), N).
Proof.
  intros phi N.
  apply (C2_radiation_submodel (__init__ 31.96 30 0.08)
           (DateText "2025-07-15") (mkdate 2025 7 15) eq_refl).
  pose proof PI_bounds as [Hpi _].
  simpl. unfold math_radians. rewrite Rabs_right by nra. nra.
Defined.

(** C3, counterexample.  With wind speed absent the same solar radiation
    of 1e200 makes the square overflow in the no-wind branch too: the call
    raises [OverflowError] and returns no value. *)
Lemma C3_counterexample :
  _calculate_ra_and_N (__init__ 31.96 30 0.08) (DateText "2025-07-15")
    = Return (soreq_Ra 7, soreq_N 7)
  /\ soreq_Ra 7 <> 0
  /\ 0 <= 28 + 9.5
  /\ calculate_daily_evaporation (__init__ 31.96 30 0.08)
       (DateText "2025-07-15") 28 45 1e200 None "penman1948"
     = Raise OverflowError.
Proof.
  destruct (soreq_call "2025-07-15" 2025 7 15 22 eq_refl Rabs_22)
    as [Hra [[Hlo Hhi] _]].
  assert (Hnz : soreq_Ra 7 <> 0) by lra.
  assert (Ht : 0 <= 28 + 9.5) by lra.
  split; [exact Hra | split; [exact Hnz | split; [exact Ht |]]].
  unfold calculate_daily_evaporation.
  rewrite (e_pen_overflow (__init__ 31.96 30 0.08)
             (DateText "2025-07-15") 28 45 1e200
             (soreq_Ra 7) (soreq_N 7) None "penman1948" Hra
             (or_introl eq_refl) Hnz Ht (soreq_overflow 7)).
  reflexivity.
Qed.

(** C3, amended.  With wind speed absent, a non-negative [t_mean + 9.5], a
    nonzero [Ra] and a square [(rs / Ra)^2] within the range of binary64,
    the result is [max(0, 0.047 rs sqrt(t_mean + 9.5) - 2.4 (rs/Ra)^2
    + 0.09 (t_mean + 20)(1 - rh_mean/100) + 0.00012 elevation)], and the
    wind-function argument has no effect: any two values of it, recognized
    or not, give the same outcome. *)
Theorem C3_nowind_branch_result (latitude_deg elevation albedo : R)
    (date : date_arg) (t_mean rh_mean rs Ra N : R) :
  _calculate_ra_and_N (__init__ latitude_deg elevation albedo) date
    = Return (Ra, N) ->
  Ra <> 0 ->
  0 <= t_mean + 9.5 ->
  Rsqr (rs / Ra) <= float_max ->
  forall wind_function : string,
    calculate_daily_evaporation (__init__ latitude_deg elevation albedo) date
      t_mean rh_mean rs None wind_function
    = Return (Rmax 0
        (0.047 * rs * sqrt (t_mean + 9.5)
         - 2.4 * Rsqr (rs / Ra)
         + 0.09 * (t_mean + 20) * (1 - rh_mean / 100)
         + 0.00012 * elevation))
    /\ forall other : string,
         calculate_daily_evaporation (__init__ latitude_deg elevation albedo)
           date t_mean rh_mean rs None other
         = calculate_daily_evaporation (__init__ latitude_deg elevation albedo)
             date t_mean rh_mean rs None wind_function.
Proof.
  intros Hra Hnz Ht Hsq wind_function. split.
  - rewrite calculate_daily_evaporation_clamp.
    rewrite (e_pen_nowind_value _ _ _ _ _ _ _ wind_function Hra Hnz Ht
               (square_in_range _ Hsq)).
    reflexivity.
  - intros other. reflexivity.
Qed.

Lemma C3_nowind_branch_result_witness :
  calculate_daily_evaporation (__init__ 31.96 30 0.08) (DateText "2025-07-15")
    28 45 22 None "foo"
  = Return (Rmax 0
      (0.047 * 22 * sqrt (28 + 9.5)
       - 2.4 * Rsqr (22 / (soreq_Ra 7))
       + 0.09 * (28 + 20) * (1 - 45 / 100)
       + 0.00012 * 30)).
Proof.
  destruct (soreq_call "2025-07-15" 2025 7 15 22 eq_refl Rabs_22)
    as [Hra [[Hlo Hhi] Hsq]].
  apply (C3_nowind_branch_result 31.96 30 0.08 (DateText "2025-07-15")
           28 45 22 (soreq_Ra 7) (soreq_N 7)).
  - exact Hra.
  - lra.
  - lra.
  - exact Hsq.
Defined.

(** C4. Whenever the call returns a value, the value is non-negative: it is
    [max(0, e_pen)] for the raw value [e_pen] of the branch taken, which is
    the formula of that branch, so a negative raw value gives exactly 0. *)
Theorem C4_result_nonnegative (self : PenmanEvaporation) (date : date_arg)
    (t_mean rh_mean rs : R) (u : option R) (wind_function : string) (v : R) :
  calculate_daily_evaporation self date t_mean rh_mean rs u wind_function
    = Return v ->
  0 <= v
  /\ exists Ra N raw,
       _calculate_ra_and_N self date = Return (Ra, N)
       /\ e_pen self date t_mean rh_mean rs u wind_function = Return raw
       /\ branch_formula self t_mean rh_mean rs Ra u wind_function raw
       /\ v = Rmax 0 raw
       /\ (raw < 0 -> v = 0).
Proof.
  intros Hv. rewrite calculate_daily_evaporation_clamp in Hv.
  destruct (e_pen self date t_mean rh_mean rs u wind_function) as [raw | e]
    eqn:He; [| discriminate].
  injection Hv as Hv. subst v.
  destruct (e_pen_returns _ _ _ _ _ _ _ _ He) as [Ra [N [Hra [_ [_ Hf]]]]].
  split; [apply Rmax_l |].
  exists Ra, N, raw. repeat split; try assumption.
  intros Hneg. apply Rmax_left. lra.
Qed.

Lemma C4_result_nonnegative_witness :
  0 <= Rmax 0
      (0.051 * (1 - 0.08) * 22 * sqrt (28 + 9.5)
       - 2.4 * Rsqr (22 / (soreq_Ra 7))
       + 0.052 * (28 + 20) * (1 - 45 / 100) * (1 - 0.38 + 0.536 * 2.5)
       + 0.00012 * 30).
Proof.
  destruct (soreq_radiation "2025-07-15" 2025 7 15 eq_refl) as [Hra Hpos].
  assert (Hnz : (soreq_Ra 7) <> 0) by lra.
  assert (Ht : 0 <= 28 + 9.5) by lra.
  pose proof (e_pen_wind_value soreq (DateText "2025-07-15") 28 45 22 2.5
                (soreq_Ra 7) (soreq_N 7) penman1948 Hra Hnz Ht
                (soreq_in_range 22 7 Rabs_22)) as He.
  apply (C4_result_nonnegative soreq (DateText "2025-07-15") 28 45 22
           (Some 2.5) "penman1948").
  rewrite calculate_daily_evaporation_clamp.
  change (wind_name penman1948) with "penman1948"%string in He.
  rewrite He. reflexivity.
Defined.

Lemma zero_radiation_july (elevation albedo : R) (s : string) (yy dd : Z) :
  normalize_date (DateText s) = Return (mkdate yy 7 dd) ->
  exists Ra N,
    _calculate_ra_and_N (__init__ zero_radiation_latitude_deg elevation albedo)
      (DateText s) = Return (Ra, N)
    /\ Ra = 0.
Proof.
  intros Hd.
  pose proof PI_bounds as [Hpi3 Hpi4].
  assert (Hsin : 0 < sin 2.06) by (apply sin_gt_0; lra).
  rewrite (calculate_ra_and_N_value _ _ _ Hd). cbn [month latitude_rad __init__].
  assert (HN : spec_N (math_radians zero_radiation_latitude_deg) 7 = 0).
  { unfold spec_N, math_radians, zero_radiation_latitude_deg.
    replace (0.53 * 7 - 1.65) with 2.06 by lra.
    field. split; lra. }
  rewrite HN.
  eexists. eexists. split; [reflexivity |].
  unfold spec_Ra_temperate, spec_Ra_tropical.
  destruct (Rgt_dec (Rabs (math_radians zero_radiation_latitude_deg)) tropic);
    ring.
Qed.

(** C5, counterexample.  At -10 degrees with wind speed present and the
    wind function 'foo', the call raises the error of the wind-function
    check, which comes before the square root: the failure is not a
    numeric-domain one. *)
Lemma C5_counterexample :
  -10 < -9.5
  /\ calculate_daily_evaporation soreq (DateText "2025-07-15")
       (-10) 45 22 (Some 2.5) "foo" = Raise WindFunctionValueError
  /\ ~ fails_with
         (calculate_daily_evaporation soreq (DateText "2025-07-15")
            (-10) 45 22 (Some 2.5) "foo")
         NumericDomainError.
Proof.
  destruct (soreq_radiation "2025-07-15" 2025 7 15 eq_refl) as [Hra _].
  assert (Hcall : calculate_daily_evaporation soreq (DateText "2025-07-15")
                    (-10) 45 22 (Some 2.5) "foo" = Raise WindFunctionValueError).
  { unfold calculate_daily_evaporation, e_pen. rewrite Hra. reflexivity. }
  split; [lra | split; [exact Hcall |]].
  rewrite Hcall. intros [e [He Hk]].
  injection He as He. subst e. discriminate Hk.
Qed.

(** C5, amended.  When the date is accepted by the radiation sub-model,
    which returns [Ra], and [t_mean < -9.5] or [Ra = 0]: every call with
    wind speed present and a recognized wind function fails with a
    numeric-domain error, and when [t_mean < -9.5] so does every call with
    wind speed absent; no value is returned. *)
Theorem C5_numeric_domain_errors (self : PenmanEvaporation)
    (datetime_obj : date_arg) (t_mean rh_mean rs Ra N : R) :
  _calculate_ra_and_N self datetime_obj = Return (Ra, N) ->
  t_mean < -9.5 \/ Ra = 0 ->
  (forall (u : R) (w : WindFunction),
     fails_with
       (calculate_daily_evaporation self datetime_obj t_mean rh_mean rs
          (Some u) (wind_name w)) NumericDomainError
     /\ ~ returns_value
          (calculate_daily_evaporation self datetime_obj t_mean rh_mean rs
             (Some u) (wind_name w)))
  /\ (t_mean < -9.5 ->
      forall wind_function : string,
        fails_with
          (calculate_daily_evaporation self datetime_obj t_mean rh_mean rs
             None wind_function) NumericDomainError
        /\ ~ returns_value
             (calculate_daily_evaporation self datetime_obj t_mean rh_mean rs
                None wind_function)).
Proof.
  intros Hra Hdom.
  assert (Hwind : forall (u : R) (w : WindFunction),
            fails_with
              (calculate_daily_evaporation self datetime_obj t_mean rh_mean rs
                 (Some u) (wind_name w)) NumericDomainError).
  { intros u w. unfold calculate_daily_evaporation, e_pen.
    rewrite Hra. cbn [bind]. rewrite wind_coefficients_name. cbn [bind].
    destruct (Rlt_dec (t_mean + 9.5) 0) as [Hneg | Hpos].
    - rewrite (math_sqrt_neg _ Hneg). apply (raise_fails_with MathDomainError).
    - destruct Hdom as [Hcold | Hzero]; [lra |]. subst Ra.
      rewrite math_sqrt_ok by lra. cbn [bind]. rewrite truediv_zero.
      apply (raise_fails_with ZeroDivisionError). }
  assert (Hnowind : t_mean < -9.5 -> forall wind_function : string,
            fails_with
              (calculate_daily_evaporation self datetime_obj t_mean rh_mean rs
                 None wind_function) NumericDomainError).
  { intros Hcold wind_function. unfold calculate_daily_evaporation, e_pen.
    rewrite Hra. cbn [bind]. rewrite math_sqrt_neg by lra.
    apply (raise_fails_with MathDomainError). }
  split.
  - intros u w. split; [apply Hwind |].
    apply (fails_not_returns _ NumericDomainError). apply Hwind.
  - intros Hcold wind_function. split; [apply Hnowind; exact Hcold |].
    apply (fails_not_returns _ NumericDomainError). apply Hnowind. exact Hcold.
Qed.

Lemma C5_numeric_domain_errors_witness :
  fails_with
    (calculate_daily_evaporation soreq (DateText "2025-07-15")
       (-10) 45 22 (Some 2.5) "penman1948") NumericDomainError
  /\ fails_with
       (calculate_daily_evaporation soreq (DateText "2025-07-15")
          (-10) 45 22 None "penman1948") NumericDomainError
  /\ fails_with
       (calculate_daily_evaporation
          (__init__ zero_radiation_latitude_deg 30 0.08)
          (DateText "2025-07-15") 28 45 22 (Some 2.5) "penman1948")
       NumericDomainError.
Proof.
  destruct (soreq_radiation "2025-07-15" 2025 7 15 eq_refl) as [Hra _].
  assert (Hcold : -10 < -9.5) by lra.
  destruct (C5_numeric_domain_errors soreq (DateText "2025-07-15")
              (-10) 45 22 (soreq_Ra 7) (soreq_N 7) Hra (or_introl Hcold))
    as [Hwind Hnowind].
  split; [| split].
  - exact (proj1 (Hwind 2.5 penman1948)).
  - exact (proj1 (Hnowind Hcold "penman1948"%string)).
  - destruct (zero_radiation_july 30 0.08 "2025-07-15" 2025 15 eq_refl)
      as [Ra [N [Hzero HRa]]].
    exact (proj1 (proj1 (C5_numeric_domain_errors _ (DateText "2025-07-15")
                           28 45 22 Ra N Hzero (or_intror HRa))
                    2.5 penman1948)).
Defined.

(** C6, counterexample.  With the malformed date text '15-07-2025', wind
    speed present and the wind function 'foo', the call raises the error of
    the date parser, which runs first: the failure is not an
    invalid-parameter one. *)
Lemma C6_counterexample :
  ~ recognized "foo"
  /\ calculate_daily_evaporation soreq (DateText "15-07-2025")
       28 45 22 (Some 2.5) "foo" = Raise StrptimeValueError
  /\ ~ fails_with
         (calculate_daily_evaporation soreq (DateText "15-07-2025")
            28 45 22 (Some 2.5) "foo")
         InvalidParameterError.
Proof.
  assert (Hcall : calculate_daily_evaporation soreq (DateText "15-07-2025")
                    28 45 22 (Some 2.5) "foo" = Raise StrptimeValueError)
    by reflexivity.
  split; [| split; [exact Hcall |]].
  - intros [w Hw]. destruct w; discriminate Hw.
  - rewrite Hcall. intros [e [He Hk]].
    injection He as He. subst e. discriminate Hk.
Qed.

(** C6, amended.  With wind speed present and a wind function that is not
    one of penman1948, penman1956, linacre1993: when the date is a
    structured date or text that parses, the call fails with an
    invalid-parameter error; whatever the date, no value is returned, so no
    default wind function is substituted. *)
Theorem C6_unrecognized_wind_function (self : PenmanEvaporation)
    (datetime_obj : date_arg) (t_mean rh_mean rs u : R)
    (wind_function : string) :
  ~ recognized wind_function ->
  (forall d : date,
     normalize_date datetime_obj = Return d ->
     calculate_daily_evaporation self datetime_obj t_mean rh_mean rs
       (Some u) wind_function = Raise WindFunctionValueError
     /\ fails_with
          (calculate_daily_evaporation self datetime_obj t_mean rh_mean rs
             (Some u) wind_function) InvalidParameterError)
  /\ ~ returns_value
         (calculate_daily_evaporation self datetime_obj t_mean rh_mean rs
            (Some u) wind_function).
Proof.
  intros Hbad.
  pose proof (wind_coefficients_unrecognized _ Hbad) as Hcoef.
  assert (Hparsed : forall d : date,
            normalize_date datetime_obj = Return d ->
            calculate_daily_evaporation self datetime_obj t_mean rh_mean rs
              (Some u) wind_function = Raise WindFunctionValueError).
  { intros d Hd. unfold calculate_daily_evaporation, e_pen.
    rewrite (calculate_ra_and_N_value self _ _ Hd). cbn [bind].
    rewrite Hcoef. reflexivity. }
  split.
  - intros d Hd. split; [exact (Hparsed d Hd) |].
    rewrite (Hparsed d Hd). apply (raise_fails_with WindFunctionValueError).
  - intros [v Hv].
    destruct (normalize_date datetime_obj) as [d | e] eqn:Hd.
    + rewrite (Hparsed d eq_refl) in Hv. discriminate.
    + unfold calculate_daily_evaporation, e_pen in Hv.
      rewrite (calculate_ra_and_N_raise self _ _ Hd) in Hv. discriminate.
Qed.

Lemma C6_unrecognized_wind_function_witness :
  fails_with
    (calculate_daily_evaporation soreq (DateText "2025-07-15")
       28 45 22 (Some 2.5) "foo") InvalidParameterError.
Proof.
  assert (Hbad : ~ recognized "foo").
  { intros [w Hw]. destruct w; discriminate Hw. }
  exact (proj2 (proj1 (C6_unrecognized_wind_function soreq
                         (DateText "2025-07-15") 28 45 22 2.5 "foo" Hbad)
                  (mkdate 2025 7 15) eq_refl)).
Defined.

(** C7, counterexample.  The text '2025-7-5' is not of the form YYYY-MM-DD,
    yet the parser accepts it as 5 July 2025 and the call returns a value
    instead of failing with a format error. *)
Lemma C7_counterexample :
  iso_shape "2025-7-5" = false
  /\ normalize_date (DateText "2025-7-5") = Return (mkdate 2025 7 5)
  /\ returns_value
       (calculate_daily_evaporation soreq (DateText "2025-7-5") 28 45 22
          (Some 2.5) "penman1948")
  /\ ~ fails_with
         (calculate_daily_evaporation soreq (DateText "2025-7-5") 28 45 22
            (Some 2.5) "penman1948") FormatError.
Proof.
  destruct (soreq_call "2025-7-5" 2025 7 5 22 eq_refl Rabs_22)
    as [Hra [[Hlo Hhi] Hsq]].
  assert (Hnz : soreq_Ra 7 <> 0) by lra.
  assert (Ht : 0 <= 28 + 9.5) by lra.
  pose proof (e_pen_wind_value soreq (DateText "2025-7-5") 28 45 22 2.5
                (soreq_Ra 7) (soreq_N 7) penman1948 Hra Hnz Ht
                (square_in_range _ Hsq)) as He.
  change (wind_name penman1948) with "penman1948"%string in He.
  assert (Hcall : returns_value
            (calculate_daily_evaporation soreq (DateText "2025-7-5") 28 45 22
               (Some 2.5) "penman1948")).
  { eexists. unfold calculate_daily_evaporation. rewrite He. reflexivity. }
  split; [reflexivity | split; [reflexivity | split; [exact Hcall |]]].
  intros Hfail. exact (fails_not_returns _ _ Hfail Hcall).
Qed.

(** C7, amended.  A date supplied as text is parsed by the library's
    [strptime] with the format [%Y-%m-%d].  A valid date written as
    YYYY-MM-DD is read as itself.  The parser also accepts text outside
    that form: a month or day without its leading zero ('2025-7-5'), a day
    written with a space ('2025-07- 5'), decimal digits that are not ASCII
    in the year and in the second digit of the day; what it accepts is
    always a valid calendar date, and the call then behaves as on that
    structured date.  Text that the parser rejects, such as '15-07-2025'
    and every text that starts with two ASCII digits and a dash, makes both
    the radiation sub-model and the evaporation call fail with a format
    error, with no value returned.  A structured date is used as it is,
    without parsing. *)
Theorem C7_date_text_parsing :
  (forall (self : PenmanEvaporation) (s : string) (t_mean rh_mean rs : R)
          (u : option R) (wind_function : string),
     match strptime_ymd s with
     | Return d =>
         valid_date (year d) (month d) (day d) = true
         /\ _calculate_ra_and_N self (DateText s)
            = _calculate_ra_and_N self (DateValue d)
         /\ calculate_daily_evaporation self (DateText s) t_mean rh_mean rs u
              wind_function
            = calculate_daily_evaporation self (DateValue d) t_mean rh_mean rs
                u wind_function
     | Raise _ =>
         fails_with (_calculate_ra_and_N self (DateText s)) FormatError
         /\ fails_with
              (calculate_daily_evaporation self (DateText s) t_mean rh_mean rs
                 u wind_function) FormatError
         /\ ~ returns_value
                (calculate_daily_evaporation self (DateText s) t_mean rh_mean
                   rs u wind_function)
     end)
  /\ (forall (self : PenmanEvaporation) (t_mean rh_mean rs : R)
             (u : option R) (wind_function : string),
        fails_with
          (calculate_daily_evaporation self (DateText "15-07-2025") t_mean
             rh_mean rs u wind_function) FormatError)
  /\ (forall (a b : Z) (rest : string),
        (0 <= a <= 9)%Z -> (0 <= b <= 9)%Z ->
        normalize_date
          (DateText (String (digit_char a)
                       (String (digit_char b) (String "-" rest))))
        = Raise StrptimeValueError)
  /\ (forall y m d : Z,
        valid_date y m d = true ->
        iso_shape (isoformat (mkdate y m d)) = true
        /\ normalize_date (DateText (isoformat (mkdate y m d)))
           = Return (mkdate y m d))
  /\ (normalize_date (DateText "2025-7-5") = Return (mkdate 2025 7 5)
      /\ normalize_date (DateText "2025-07- 5") = Return (mkdate 2025 7 5)
      /\ normalize_date (DateText text_with_arabic_indic_five)
         = Return (mkdate 2025 7 15))
  /\ (forall (self : PenmanEvaporation) (d : date),
        normalize_date (DateValue d) = Return d
        /\ returns_value (_calculate_ra_and_N self (DateValue d))).
Proof.
  assert (Hfail : forall (self : PenmanEvaporation) (s : string) (e : exn)
                         (t_mean rh_mean rs : R) (u : option R)
                         (wind_function : string),
            strptime_ymd s = Raise e ->
            calculate_daily_evaporation self (DateText s) t_mean rh_mean rs u
              wind_function = Raise StrptimeValueError).
  { intros self s e t_mean rh_mean rs u wind_function He.
    pose proof (strptime_ymd_raises _ _ He) as ->.
    unfold calculate_daily_evaporation, e_pen.
    rewrite (calculate_ra_and_N_raise self (DateText s) _ He). reflexivity. }
  split; [| split; [| split; [| split; [| split]]]].
  - intros self s t_mean rh_mean rs u wind_function.
    destruct (strptime_ymd s) as [d | e] eqn:Hs.
    + assert (Hsub : _calculate_ra_and_N self (DateText s)
                     = _calculate_ra_and_N self (DateValue d)).
      { unfold _calculate_ra_and_N. simpl. rewrite Hs. reflexivity. }
      split; [exact (strptime_ymd_valid s d Hs) | split; [exact Hsub |]].
      unfold calculate_daily_evaporation, e_pen. rewrite Hsub. reflexivity.
    + pose proof (strptime_ymd_raises _ _ Hs) as ->.
      split; [| split].
      * rewrite (calculate_ra_and_N_raise self (DateText s) _ Hs).
        apply (raise_fails_with StrptimeValueError).
      * rewrite (Hfail self s _ t_mean rh_mean rs u wind_function Hs).
        apply (raise_fails_with StrptimeValueError).
      * rewrite (Hfail self s _ t_mean rh_mean rs u wind_function Hs).
        intros [v Hv]. discriminate.
  - intros self t_mean rh_mean rs u wind_function.
    rewrite (Hfail self "15-07-2025"%string StrptimeValueError
               t_mean rh_mean rs u wind_function eq_refl).
    apply (raise_fails_with StrptimeValueError).
  - intros a b rest Ha Hb. simpl.
    unfold strptime_ymd, regex_matches, group_Y.
    rewrite (match_digit_char a _ Ha), (match_digit_char b _ Hb).
    reflexivity.
  - intros y m d Hv. split; [| simpl; apply strptime_isoformat; exact Hv].
    apply isoformat_shape. exact Hv.
  - repeat split; reflexivity.
  - intros self d. split; [reflexivity |].
    rewrite (calculate_ra_and_N_value self (DateValue d) d eq_refl).
    eexists. reflexivity.
Qed.

Lemma C7_date_text_parsing_witness :
  normalize_date (DateText "15-" ) = Raise StrptimeValueError
  /\ normalize_date (DateText (isoformat (mkdate 2024 2 29)))
     = Return (mkdate 2024 2 29).
Proof.
  split.
  - exact (proj1 (proj2 (proj2 C7_date_text_parsing)) 1%Z 5%Z EmptyString
             ltac:(lia) ltac:(lia)).
  - exact (proj2 (proj1 (proj2 (proj2 (proj2 C7_date_text_parsing)))
                    2024%Z 2%Z 29%Z eq_refl)).
Defined.

(** C8, counterexample.  On a cold, humid, calm January day at the site of
    the example run both wind functions give a negative raw value, both
    results are clamped to 0, and their difference is 0, not
    [0.052 (t_mean + 20) (1 - rh_mean/100) 0.5]. *)
Lemma C8_counterexample :
  calculate_daily_evaporation soreq (DateText "2025-01-15")
    (-9.5) 90 10 (Some 0) "penman1948" = Return 0
  /\ calculate_daily_evaporation soreq (DateText "2025-01-15")
       (-9.5) 90 10 (Some 0) "penman1956" = Return 0
  /\ 0 - 0 <> 0.052 * (-9.5 + 20) * (1 - 90 / 100) * 0.5.
Proof.
  destruct (soreq_radiation "2025-01-15" 2025 1 15 eq_refl) as [Hra [Hpos Hle]].
  assert (Hnz : soreq_Ra 1 <> 0) by lra.
  assert (Ht : 0 <= -9.5 + 9.5) by lra.
  assert (Hroot : sqrt (-9.5 + 9.5) = 0).
  { replace (-9.5 + 9.5) with 0 by lra. apply sqrt_0. }
  assert (Hq : 0.04 <= Rsqr (10 / soreq_Ra 1)).
  { assert (Hinv : / 48 <= / soreq_Ra 1) by (apply Rinv_le_contravar; lra).
    unfold Rsqr, Rdiv. nra. }
  assert (Hclamp : forall w : WindFunction,
            spec_a_u w <= 1 ->
            calculate_daily_evaporation soreq (DateText "2025-01-15")
              (-9.5) 90 10 (Some 0) (wind_name w) = Return 0).
  { intros w Hw. unfold calculate_daily_evaporation.
    rewrite (e_pen_wind_value soreq _ _ _ _ _ _ _ w Hra Hnz Ht
               (soreq_in_range 10 1 (Rabs_small 10 ltac:(lra)))).
    cbn [bind]. f_equal. apply max0_of_nonpos.
    unfold spec_e_pen_wind. rewrite Hroot. simpl. nra. }
  split; [| split].
  - apply (Hclamp penman1948). simpl. lra.
  - apply (Hclamp penman1956). simpl. lra.
  - lra.
Qed.

(** C8, amended.  For fixed engine, date, weather and wind speed on which
    the call with penman1948 returns, the call with penman1956 returns too;
    the raw values [e_pen] of the two are the same expression
    [term1 - term2 + 0.052 (t_mean + 20) (1 - rh_mean/100)
    (a_u - 0.38 + 0.536 u) + 0.00012 elevation] with [a_u = 1] and
    [a_u = 0.5], so they differ only through [a_u]; each result is
    [max(0, e_pen)], and with a relative humidity of at most 100 the result
    with penman1948 is never below the result with penman1956. *)
Theorem C8_wind_function_difference (self : PenmanEvaporation)
    (datetime_obj : date_arg) (t_mean rh_mean rs u out48 : R) :
  calculate_daily_evaporation self datetime_obj t_mean rh_mean rs (Some u)
    "penman1948" = Return out48 ->
  exists Ra N out56 raw48 raw56,
    _calculate_ra_and_N self datetime_obj = Return (Ra, N)
    /\ calculate_daily_evaporation self datetime_obj t_mean rh_mean rs
         (Some u) "penman1956" = Return out56
    /\ e_pen self datetime_obj t_mean rh_mean rs (Some u) "penman1948"
       = Return raw48
    /\ e_pen self datetime_obj t_mean rh_mean rs (Some u) "penman1956"
       = Return raw56
    /\ raw48
       = 0.051 * (1 - albedo self) * rs * sqrt (t_mean + 9.5)
         - 2.4 * Rsqr (rs / Ra)
         + 0.052 * (t_mean + 20) * (1 - rh_mean / 100)
           * (1 - 0.38 + 0.536 * u)
         + 0.00012 * elevation self
    /\ raw56
       = 0.051 * (1 - albedo self) * rs * sqrt (t_mean + 9.5)
         - 2.4 * Rsqr (rs / Ra)
         + 0.052 * (t_mean + 20) * (1 - rh_mean / 100)
           * (0.5 - 0.38 + 0.536 * u)
         + 0.00012 * elevation self
    /\ out48 = Rmax 0 raw48
    /\ out56 = Rmax 0 raw56
    /\ (rh_mean <= 100 -> out56 <= out48).
Proof.
  intros Hout. unfold calculate_daily_evaporation in Hout.
  destruct (e_pen self datetime_obj t_mean rh_mean rs (Some u) "penman1948")
    as [raw48 | e] eqn:H48; [| discriminate].
  cbn [bind] in Hout. injection Hout as Hout. subst out48.
  destruct (e_pen_returns_in_range _ _ _ _ _ _ _ _ H48)
    as [Ra [N [Hra [Hnz [Ht [Hov _]]]]]].
  pose proof (e_pen_wind_value self _ t_mean rh_mean rs u Ra N penman1948
                Hra Hnz Ht Hov) as E48.
  pose proof (e_pen_wind_value self _ t_mean rh_mean rs u Ra N penman1956
                Hra Hnz Ht Hov) as E56.
  change (wind_name penman1948) with "penman1948"%string in E48.
  change (wind_name penman1956) with "penman1956"%string in E56.
  cbn [spec_a_u spec_b_u] in E48, E56.
  rewrite H48 in E48. injection E48 as E48.
  exists Ra, N,
    (max0 (spec_e_pen_wind (albedo self) (elevation self) t_mean rh_mean
             rs Ra 0.5 0.536 u)),
    raw48,
    (spec_e_pen_wind (albedo self) (elevation self) t_mean rh_mean
       rs Ra 0.5 0.536 u).
  split; [exact Hra |].
  split; [unfold calculate_daily_evaporation; rewrite E56; reflexivity |].
  split; [reflexivity |].
  split; [exact E56 |].
  split; [rewrite E48; reflexivity |].
  split; [reflexivity |].
  split; [apply max0_Rmax |].
  split; [apply max0_Rmax |].
  intros Hrh. apply max0_monotone. rewrite E48.
  pose proof (spec_e_pen_wind_coefficient (albedo self) (elevation self)
                t_mean rh_mean rs Ra 1 0.5 0.536 0.536 u) as Hd.
  assert (Hpos : 0 <= 0.052 * (t_mean + 20) * (1 - rh_mean / 100)
                      * (1 - 0.5 + (0.536 - 0.536) * u))
    by (apply product3_nonneg; lra).
  lra.
Qed.

Lemma C8_wind_function_difference_witness :
  exists Ra N out56 raw48 raw56,
    _calculate_ra_and_N soreq (DateText "2025-07-15") = Return (Ra, N)
    /\ calculate_daily_evaporation soreq (DateText "2025-07-15") 28 45 22
         (Some 2.5) "penman1956" = Return out56
    /\ e_pen soreq (DateText "2025-07-15") 28 45 22 (Some 2.5) "penman1948"
       = Return raw48
    /\ e_pen soreq (DateText "2025-07-15") 28 45 22 (Some 2.5) "penman1956"
       = Return raw56
    /\ out56
       <= max0 (spec_e_pen_wind 0.08 30 28 45 22 (soreq_Ra 7) 1 0.536 2.5).
Proof.
  destruct (soreq_call "2025-07-15" 2025 7 15 22 eq_refl Rabs_22)
    as [Hra [[Hlo Hhi] Hsq]].
  assert (Hnz : soreq_Ra 7 <> 0) by lra.
  assert (Ht : 0 <= 28 + 9.5) by lra.
  assert (Hrh : 45 <= 100) by lra.
  pose proof (e_pen_wind_value soreq _ 28 45 22 2.5 _ _ penman1948 Hra Hnz Ht
                (square_in_range _ Hsq)) as He.
  change (wind_name penman1948) with "penman1948"%string in He.
  assert (Hcall : calculate_daily_evaporation soreq (DateText "2025-07-15")
                    28 45 22 (Some 2.5) "penman1948"
                  = Return (max0 (spec_e_pen_wind 0.08 30 28 45 22 (soreq_Ra 7)
                                    1 0.536 2.5))).
  { unfold calculate_daily_evaporation. rewrite He. reflexivity. }
  destruct (C8_wind_function_difference soreq (DateText "2025-07-15")
              28 45 22 2.5 _ Hcall)
    as [Ra [N [out56 [raw48 [raw56 [H1 [H2 [H3 [H4 [_ [_ [_ [_ H9]]]]]]]]]]]]].
  exists Ra, N, out56, raw48, raw56.
  split; [exact H1 | split; [exact H2 | split; [exact H3 | split]]];
    [exact H4 | exact (H9 Hrh)].
Defined.

Section Binary64Replay.
Import Floats.
#[local] Set Warnings "-inexact-float".

(** In binary64 the raw values of the two wind functions at the site of the
    example run (July, 28 degrees, humidity 45, radiation 22, wind 2.5) are
    8.303124287970107 and 7.616724287970106; their difference is not the
    float [0.052 * (28 + 20) * (1 - 45 / 100) * 0.5]. *)
Lemma binary64_wind_function_difference :
  PrimFloat.eqb
    (PrimFloat.sub
       (Binary64.e_pen_wind 0.08 30 28 45 22 Binary64.soreq_july_ra
          1 0.536 2.5)
       (Binary64.e_pen_wind 0.08 30 28 45 22 Binary64.soreq_july_ra
          0.5 0.536 2.5))
    (0.052 * (28 + 20) * (1 - 45 / 100) * 0.5)%float
  = false
  /\ PrimFloat.eqb
       (Binary64.e_pen_wind 0.08 30 28 45 22 Binary64.soreq_july_ra
          1 0.536 2.5) 8.303124287970107%float = true
  /\ PrimFloat.eqb
       (Binary64.e_pen_wind 0.08 30 28 45 22 Binary64.soreq_july_ra
          0.5 0.536 2.5) 7.616724287970106%float = true.
Proof. vm_compute. repeat split. Qed.


End Binary64Replay.



(** C10.  In the no-wind branch the outcome does not depend on the albedo:
    two engines of the same latitude and elevation give the same result, or
    raise the same error, on the same date and weather with wind speed
    absent. *)
Theorem C10_nowind_albedo_independent (latitude_deg elevation albedo1 albedo2 : R)
    (datetime_obj : date_arg) (t_mean rh_mean rs : R) (wind_function : string) :
  calculate_daily_evaporation (__init__ latitude_deg elevation albedo1)
    datetime_obj t_mean rh_mean rs None wind_function
  = calculate_daily_evaporation (__init__ latitude_deg elevation albedo2)
      datetime_obj t_mean rh_mean rs None wind_function.
Proof.
  unfold calculate_daily_evaporation, e_pen.
  rewrite (calculate_ra_and_N_site (__init__ latitude_deg elevation albedo1)
             (__init__ latitude_deg elevation albedo2) datetime_obj eq_refl).
  reflexivity.
Qed.

(** ** The outcome of a call, case by case

    The checks of [calculate_daily_evaporation] run in a fixed order: the
    date, the wind function (only when wind speed is present), the square
    root, the division. *)

Lemma normalize_date_raises (a : date_arg) (e : exn) :
  normalize_date a = Raise e -> e = StrptimeValueError.
Proof.
  destruct a as [s | d]; simpl; [apply strptime_ymd_raises | discriminate].
Qed.

Lemma calculate_ra_and_N_returns (self : PenmanEvaporation) (a : date_arg)
    (Ra N : R) :
  _calculate_ra_and_N self a = Return (Ra, N) ->
  exists d, normalize_date a = Return d.
Proof.
  intros H. destruct (normalize_date a) as [d | e] eqn:Hd.
  - exists d. reflexivity.
  - rewrite (calculate_ra_and_N_raise self a e Hd) in H. discriminate.
Qed.

Lemma outcome_date_error (self : PenmanEvaporation) (a : date_arg) (e : exn)
    (t_mean rh_mean rs : R) (u : option R) (wind_function : string) :
  normalize_date a = Raise e ->
  calculate_daily_evaporation self a t_mean rh_mean rs u wind_function
  = Raise StrptimeValueError.
Proof.
  intros Hd. pose proof (normalize_date_raises a e Hd) as ->.
  unfold calculate_daily_evaporation, e_pen.
  rewrite (calculate_ra_and_N_raise self a _ Hd). reflexivity.
Qed.

Lemma outcome_wind_error (self : PenmanEvaporation) (a : date_arg) (Ra N : R)
    (t_mean rh_mean rs u : R) (wind_function : string) :
  _calculate_ra_and_N self a = Return (Ra, N) ->
  ~ recognized wind_function ->
  calculate_daily_evaporation self a t_mean rh_mean rs (Some u) wind_function
  = Raise WindFunctionValueError.
Proof.
  intros Hra Hbad. unfold calculate_daily_evaporation, e_pen.
  rewrite Hra. cbn [bind].
  rewrite (wind_coefficients_unrecognized _ Hbad). reflexivity.
Qed.

Lemma outcome_sqrt_error (self : PenmanEvaporation) (a : date_arg) (Ra N : R)
    (t_mean rh_mean rs : R) (u : option R) (wind_function : string) :
  _calculate_ra_and_N self a = Return (Ra, N) ->
  u = None \/ recognized wind_function ->
  t_mean + 9.5 < 0 ->
  calculate_daily_evaporation self a t_mean rh_mean rs u wind_function
  = Raise MathDomainError.
Proof.
  intros Hra Hw Hneg. unfold calculate_daily_evaporation, e_pen.
  rewrite Hra. cbn [bind]. rewrite (math_sqrt_neg _ Hneg).
  destruct u as [u |]; [| reflexivity].
  destruct Hw as [Hu | [w ->]]; [discriminate |].
  rewrite wind_coefficients_name. reflexivity.
Qed.

Lemma outcome_div_error (self : PenmanEvaporation) (a : date_arg) (N : R)
    (t_mean rh_mean rs : R) (u : option R) (wind_function : string) :
  _calculate_ra_and_N self a = Return (0, N) ->
  u = None \/ recognized wind_function ->
  0 <= t_mean + 9.5 ->
  calculate_daily_evaporation self a t_mean rh_mean rs u wind_function
  = Raise ZeroDivisionError.
Proof.
  intros Hra Hw Ht. unfold calculate_daily_evaporation, e_pen.
  rewrite Hra. cbn [bind]. rewrite (math_sqrt_ok _ Ht), truediv_zero.
  destruct u as [u |]; [| reflexivity].
  destruct Hw as [Hu | [w ->]]; [discriminate |].
  rewrite wind_coefficients_name. reflexivity.
Qed.

Lemma outcome_pow_error (self : PenmanEvaporation) (a : date_arg) (Ra N : R)
    (t_mean rh_mean rs : R) (u : option R) (wind_function : string) :
  _calculate_ra_and_N self a = Return (Ra, N) ->
  u = None \/ recognized wind_function ->
  0 <= t_mean + 9.5 ->
  Ra <> 0 ->
  pow2_overflows (rs / Ra) ->
  calculate_daily_evaporation self a t_mean rh_mean rs u wind_function
  = Raise OverflowError.
Proof.
  intros Hra Hw Ht Hnz Hov. unfold calculate_daily_evaporation.
  rewrite (e_pen_overflow self a t_mean rh_mean rs Ra N u wind_function
             Hra Hw Hnz Ht Hov).
  reflexivity.
Qed.

Lemma outcome_value (self : PenmanEvaporation) (a : date_arg) (Ra N : R)
    (t_mean rh_mean rs : R) (u : option R) (wind_function : string) :
  _calculate_ra_and_N self a = Return (Ra, N) ->
  u = None \/ recognized wind_function ->
  0 <= t_mean + 9.5 ->
  Ra <> 0 ->
  ~ pow2_overflows (rs / Ra) ->
  exists raw,
    e_pen self a t_mean rh_mean rs u wind_function = Return raw
    /\ branch_formula self t_mean rh_mean rs Ra u wind_function raw
    /\ calculate_daily_evaporation self a t_mean rh_mean rs u wind_function
       = Return (max0 raw).
Proof.
  intros Hra Hw Ht Hnz Hov.
  assert (Hraw : exists raw,
            e_pen self a t_mean rh_mean rs u wind_function = Return raw).
  { destruct u as [u |].
    - destruct Hw as [Hu | [w ->]]; [discriminate |].
      eexists. apply (e_pen_wind_value _ _ _ _ _ _ Ra N w Hra Hnz Ht Hov).
    - eexists. apply (e_pen_nowind_value _ _ _ _ _ Ra N _ Hra Hnz Ht Hov). }
  destruct Hraw as [raw Hraw]. exists raw.
  split; [exact Hraw | split].
  - destruct (e_pen_returns _ _ _ _ _ _ _ _ Hraw) as [Ra' [N' [Hra' [_ [_ Hf]]]]].
    rewrite Hra in Hra'. injection Hra' as <- <-. exact Hf.
  - unfold calculate_daily_evaporation. rewrite Hraw. reflexivity.
Qed.

Lemma daily_evaporation_outcome (self : PenmanEvaporation) (a : date_arg)
    (t_mean rh_mean rs : R) (u : option R) (wind_function : string) :
  outcome self a t_mean rs u wind_function
    (calculate_daily_evaporation self a t_mean rh_mean rs u wind_function).
Proof.
  destruct (normalize_date a) as [d | e] eqn:Hd.
  2:{ rewrite (outcome_date_error self a e _ _ _ _ _ Hd).
      apply (outcome_format _ _ _ _ _ _ e Hd). }
  pose proof (calculate_ra_and_N_value self a d Hd) as Hra.
  set (Ra := if Rgt_dec (Rabs (latitude_rad self)) tropic
             then spec_Ra_temperate (latitude_rad self)
                    (spec_N (latitude_rad self) (IZR (month d)))
             else spec_Ra_tropical (latitude_rad self)
                    (spec_N (latitude_rad self) (IZR (month d)))) in Hra.
  set (N := spec_N (latitude_rad self) (IZR (month d))) in Hra.
  assert (Hw : (exists v, u = Some v /\ ~ recognized wind_function)
               \/ (u = None \/ recognized wind_function)).
  { destruct u as [v |]; [| right; left; reflexivity].
    destruct (wind_coefficients_cases wind_function) as [[w [Hw _]] | [Hbad _]].
    - right. right. exists w. exact Hw.
    - left. exists v. split; [reflexivity | exact Hbad]. }
  destruct Hw as [[v [-> Hbad]] | Hw].
  { rewrite (outcome_wind_error self a Ra N _ _ _ v _ Hra Hbad).
    apply (outcome_wind _ _ _ _ _ _ Ra N v Hra eq_refl Hbad). }
  destruct (Rlt_dec (t_mean + 9.5) 0) as [Hneg | Hpos].
  { rewrite (outcome_sqrt_error self a Ra N _ _ _ _ _ Hra Hw Hneg).
    apply (outcome_sqrt _ _ _ _ _ _ Ra N Hra Hw Hneg). }
  assert (Ht : 0 <= t_mean + 9.5) by lra.
  destruct (Req_EM_T Ra 0) as [Hz | Hnz].
  { rewrite Hz in Hra.
    rewrite (outcome_div_error self a N _ _ _ _ _ Hra Hw Ht).
    apply (outcome_div _ _ _ _ _ _ N Hra Hw Ht). }
  destruct (pow2_overflows_dec (rs / Ra)) as [Hov | Hov].
  { rewrite (outcome_pow_error self a Ra N _ _ _ _ _ Hra Hw Ht Hnz Hov).
    apply (outcome_pow _ _ _ _ _ _ Ra N Hra Hw Ht Hnz Hov). }
  destruct (outcome_value self a Ra N t_mean rh_mean rs u wind_function
              Hra Hw Ht Hnz Hov) as [raw [_ [_ Hcall]]].
  rewrite Hcall.
  apply (outcome_return _ _ _ _ _ _ Ra N (max0 raw) Hra Hw Ht Hnz Hov).
Qed.

(** X1.  A call returns a value exactly when the date is accepted, the
    radiation [Ra] is not zero, [t_mean + 9.5] is not negative, the wind
    function is a recognized one or wind speed is absent, and the square
    [(rs / Ra)^2] does not overflow. *)
Theorem daily_evaporation_returns_iff (self : PenmanEvaporation)
    (datetime_obj : date_arg) (t_mean rh_mean rs : R) (u : option R)
    (wind_function : string) :
  returns_value
    (calculate_daily_evaporation self datetime_obj t_mean rh_mean rs u
       wind_function)
  <-> exists Ra N,
        _calculate_ra_and_N self datetime_obj = Return (Ra, N)
        /\ Ra <> 0
        /\ 0 <= t_mean + 9.5
        /\ (u = None \/ recognized wind_function)
        /\ ~ pow2_overflows (rs / Ra).
Proof.
  split.
  - intros [v Hv].
    pose proof (daily_evaporation_outcome self datetime_obj t_mean rh_mean rs
                  u wind_function) as Hout.
    rewrite Hv in Hout.
    inversion Hout as [ | | | | | Ra N v' Hra Hw Ht Hnz Hov].
    exists Ra, N. repeat split; assumption.
  - intros [Ra [N [Hra [Hnz [Ht [Hw Hov]]]]]].
    destruct (outcome_value self datetime_obj Ra N t_mean rh_mean rs u
                wind_function Hra Hw Ht Hnz Hov) as [raw [_ [_ Hcall]]].
    exists (max0 raw). exact Hcall.
Qed.

Lemma daily_evaporation_returns_iff_witness :
  returns_value
    (calculate_daily_evaporation soreq (DateText "2025-07-15") 28 45 22 None
       "foo")
  /\ ~ returns_value
        (calculate_daily_evaporation soreq (DateText "2025-07-15") 28 45
           1e200 None "foo").
Proof.
  destruct (soreq_call "2025-07-15" 2025 7 15 22 eq_refl Rabs_22)
    as [Hra [[Hlo Hhi] Hsq]].
  split.
  - apply (proj2 (daily_evaporation_returns_iff soreq (DateText "2025-07-15")
                    28 45 22 None "foo")).
    exists (soreq_Ra 7), (soreq_N 7).
    split; [exact Hra | split; [lra | split; [lra | split]]];
      [left; reflexivity | exact (square_in_range _ Hsq)].
  - intros Hret.
    destruct (proj1 (daily_evaporation_returns_iff soreq
                       (DateText "2025-07-15") 28 45 1e200 None "foo") Hret)
      as [Ra [N [Hra' [_ [_ [_ Hov]]]]]].
    rewrite Hra in Hra'. injection Hra' as <- <-.
    exact (Hov (soreq_overflow 7)).
Defined.

(** X2.  A call fails with a format error exactly when the date argument is
    text that the parser rejects; the weather arguments, the wind speed and
    the wind function play no part in it. *)
Theorem format_error_iff (self : PenmanEvaporation) (datetime_obj : date_arg)
    (t_mean rh_mean rs : R) (u : option R) (wind_function : string) :
  fails_with
    (calculate_daily_evaporation self datetime_obj t_mean rh_mean rs u
       wind_function) FormatError
  <-> exists s e, datetime_obj = DateText s /\ strptime_ymd s = Raise e.
Proof.
  split.
  - intros [e [He Hk]].
    pose proof (daily_evaporation_outcome self datetime_obj t_mean rh_mean rs
                  u wind_function) as Hout.
    rewrite He in Hout.
    inversion Hout as [e' Hd | | | | | ]; subst; try discriminate Hk.
    destruct datetime_obj as [s | d]; [| discriminate Hd].
    exists s, e'. split; [reflexivity | exact Hd].
  - intros [s [e [-> Hs]]].
    rewrite (outcome_date_error self (DateText s) e _ _ _ _ _ Hs).
    apply (raise_fails_with StrptimeValueError).
Qed.

(** X3.  A call fails with an invalid-parameter error exactly when the date
    is accepted, wind speed is present and the wind function is not a
    recognized one. *)
Theorem invalid_parameter_error_iff (self : PenmanEvaporation)
    (datetime_obj : date_arg) (t_mean rh_mean rs : R) (u : option R)
    (wind_function : string) :
  fails_with
    (calculate_daily_evaporation self datetime_obj t_mean rh_mean rs u
       wind_function) InvalidParameterError
  <-> (exists d, normalize_date datetime_obj = Return d)
      /\ (exists v, u = Some v)
      /\ ~ recognized wind_function.
Proof.
  split.
  - intros [e [He Hk]].
    pose proof (daily_evaporation_outcome self datetime_obj t_mean rh_mean rs
                  u wind_function) as Hout.
    rewrite He in Hout.
    inversion Hout as [ | Ra N v Hra Hu Hbad | | | | ]; subst;
      try discriminate Hk.
    split; [exact (calculate_ra_and_N_returns _ _ _ _ Hra) |].
    split; [exists v; reflexivity | exact Hbad].
  - intros [[d Hd] [[v ->] Hbad]].
    rewrite (outcome_wind_error self datetime_obj _ _ _ _ _ v _
               (calculate_ra_and_N_value self _ d Hd) Hbad).
    apply (raise_fails_with WindFunctionValueError).
Qed.

(** X4.  A call fails with a numeric-domain error exactly when the date is
    accepted, the wind function is a recognized one or wind speed is absent,
    and [t_mean + 9.5] is negative or the radiation [Ra] is zero. *)
Theorem numeric_domain_error_iff (self : PenmanEvaporation)
    (datetime_obj : date_arg) (t_mean rh_mean rs : R) (u : option R)
    (wind_function : string) :
  fails_with
    (calculate_daily_evaporation self datetime_obj t_mean rh_mean rs u
       wind_function) NumericDomainError
  <-> exists Ra N,
        _calculate_ra_and_N self datetime_obj = Return (Ra, N)
        /\ (u = None \/ recognized wind_function)
        /\ (t_mean + 9.5 < 0 \/ Ra = 0).
Proof.
  split.
  - intros [e [He Hk]].
    pose proof (daily_evaporation_outcome self datetime_obj t_mean rh_mean rs
                  u wind_function) as Hout.
    rewrite He in Hout.
    inversion Hout as [ | | Ra N Hra Hw Hneg | N Hra Hw Ht | | ]; subst;
      try discriminate Hk.
    + exists Ra, N. split; [exact Hra | split; [exact Hw | left; exact Hneg]].
    + exists 0, N. split; [exact Hra | split; [exact Hw | right; reflexivity]].
  - intros [Ra [N [Hra [Hw Hdom]]]].
    destruct (Rlt_dec (t_mean + 9.5) 0) as [Hneg | Hpos].
    + rewrite (outcome_sqrt_error self datetime_obj Ra N _ _ _ _ _ Hra Hw Hneg).
      apply (raise_fails_with MathDomainError).
    + destruct Hdom as [Hneg | ->]; [contradiction |].
      rewrite (outcome_div_error self datetime_obj N _ _ _ _ _ Hra Hw);
        [| lra].
      apply (raise_fails_with ZeroDivisionError).
Qed.

Lemma format_error_iff_witness :
  fails_with
    (calculate_daily_evaporation soreq (DateText "15-07-2025") 28 45 22
       (Some 2.5) "penman1948") FormatError.
Proof.
  apply (proj2 (format_error_iff soreq (DateText "15-07-2025") 28 45 22
                  (Some 2.5) "penman1948")).
  exists "15-07-2025"%string, StrptimeValueError.
  split; reflexivity.
Defined.

Lemma invalid_parameter_error_iff_witness :
  fails_with
    (calculate_daily_evaporation soreq (DateText "2025-07-15") (-10) 45 22
       (Some 2.5) "Penman1948") InvalidParameterError.
Proof.
  apply (proj2 (invalid_parameter_error_iff soreq (DateText "2025-07-15")
                  (-10) 45 22 (Some 2.5) "Penman1948")).
  split; [exists (mkdate 2025 7 15); reflexivity |].
  split; [exists 2.5; reflexivity |].
  intros [w Hw]. destruct w; discriminate Hw.
Defined.

Lemma numeric_domain_error_iff_witness :
  fails_with
    (calculate_daily_evaporation soreq (DateText "2025-07-15") (-10) 45 22
       None "foo") NumericDomainError.
Proof.
  destruct (soreq_radiation "2025-07-15" 2025 7 15 eq_refl) as [Hra _].
  apply (proj2 (numeric_domain_error_iff soreq (DateText "2025-07-15")
                  (-10) 45 22 None "foo")).
  exists (soreq_Ra 7), (soreq_N 7).
  split; [exact Hra | split; [left; reflexivity | left; lra]].
Defined.

(** ** The radiation sub-model, by latitude in degrees *)

Lemma Rabs_radians (latitude_deg : R) :
  Rabs (math_radians latitude_deg) = Rabs latitude_deg * (PI / 180).
Proof.
  pose proof PI_bounds as [Hpi _].
  unfold math_radians. rewrite Rabs_mult.
  rewrite (Rabs_right (PI / 180)) by lra. reflexivity.
Qed.

Lemma Rabs_le_bounds (a b : R) : Rabs a <= b -> - b <= a <= b.
Proof. unfold Rabs. destruct (Rcase_abs a); lra. Qed.

(** X5.  The zone test, made on radians, is a test on the latitude in
    degrees: an engine built at a latitude of absolute value above 23.5
    degrees, north or south, uses the temperate formula of [Ra], any other
    engine the tropical one. *)
Theorem zone_by_degrees (latitude_deg elevation albedo : R)
    (datetime_obj : date_arg) (d : date) :
  normalize_date datetime_obj = Return d ->
  let phi := math_radians latitude_deg in
  let N := spec_N phi (IZR (month d)) in
  (Rabs latitude_deg > 23.5 ->
     _calculate_ra_and_N (__init__ latitude_deg elevation albedo) datetime_obj
     = Return (spec_Ra_temperate phi N, N))
  /\ (Rabs latitude_deg <= 23.5 ->
     _calculate_ra_and_N (__init__ latitude_deg elevation albedo) datetime_obj
     = Return (spec_Ra_tropical phi N, N)).
Proof.
  intros Hd phi N.
  pose proof PI_bounds as [Hpi _].
  pose proof (calculate_ra_and_N_value (__init__ latitude_deg elevation albedo)
                datetime_obj d Hd) as Hra.
  cbn [latitude_rad __init__] in Hra. fold phi in Hra. fold N in Hra.
  pose proof (Rabs_radians latitude_deg) as Habs. fold phi in Habs.
  split; intros Hlat; rewrite Hra;
    destruct (Rgt_dec (Rabs phi) tropic) as [Hz | Hz];
    try reflexivity; exfalso; unfold tropic in Hz; rewrite Habs in Hz; nra.
Qed.

Lemma zone_by_degrees_witness :
  _calculate_ra_and_N (__init__ (-33.9) 10 0.23) (DateText "2025-01-15")
  = Return (spec_Ra_temperate (math_radians (-33.9))
              (spec_N (math_radians (-33.9)) 1),
            spec_N (math_radians (-33.9)) 1).
Proof.
  apply (zone_by_degrees (-33.9) 10 0.23 (DateText "2025-01-15")
           (mkdate 2025 1 15) eq_refl).
  rewrite Rabs_left by lra. lra.
Defined.

(** X6.  The daylight hours [N] stay within [4 |phi|] of 12; for an engine
    built at a latitude between -90 and 90 degrees they lie between
    [12 - 2 pi] and [12 + 2 pi], so between 4 and 20, for every date. *)
Theorem daylight_hours_bounds (latitude_deg elevation albedo : R)
    (datetime_obj : date_arg) (Ra N : R) :
  _calculate_ra_and_N (__init__ latitude_deg elevation albedo) datetime_obj
    = Return (Ra, N) ->
  Rabs (N - 12) <= 4 * Rabs (math_radians latitude_deg)
  /\ (Rabs latitude_deg <= 90 ->
      12 - 2 * PI <= N <= 12 + 2 * PI /\ 4 <= N <= 20).
Proof.
  intros Hra.
  destruct (calculate_ra_and_N_returns _ _ _ _ Hra) as [d Hd].
  rewrite (calculate_ra_and_N_value _ _ d Hd) in Hra.
  injection Hra as _ HN. cbn [latitude_rad __init__] in HN.
  pose proof PI_bounds as [Hpi3 Hpi4].
  set (phi := math_radians latitude_deg) in *.
  pose proof (SIN_bound (0.53 * IZR (month d) - 1.65)) as Hs.
  assert (Hbound : Rabs (N - 12) <= 4 * Rabs phi).
  { rewrite <- HN. unfold spec_N.
    replace (4 * phi * sin (0.53 * IZR (month d) - 1.65) + 12 - 12)
      with (4 * (phi * sin (0.53 * IZR (month d) - 1.65))) by ring.
    rewrite Rabs_mult, (Rabs_right 4) by lra. rewrite Rabs_mult.
    assert (Hsa : Rabs (sin (0.53 * IZR (month d) - 1.65)) <= 1)
      by (apply Rabs_le; lra).
    pose proof (Rabs_pos phi). nra. }
  split; [exact Hbound |].
  intros Hlat.
  assert (Hphi : Rabs phi <= PI / 2).
  { unfold phi. rewrite Rabs_radians. nra. }
  apply Rabs_le_bounds in Hbound. split; split; lra.
Qed.

Lemma daylight_hours_bounds_witness :
  4 <= soreq_N 7 <= 20.
Proof.
  destruct (soreq_radiation "2025-07-15" 2025 7 15 eq_refl) as [Hra _].
  assert (Hlat : Rabs 31.96 <= 90) by (rewrite Rabs_right; lra).
  exact (proj2 (proj2 (daylight_hours_bounds 31.96 30 0.08
                         (DateText "2025-07-15") (soreq_Ra 7) (soreq_N 7) Hra)
                  Hlat)).
Defined.

(** X7.  On the same date the daylight hours of two sites at opposite
    latitudes add up to 24, whatever their elevations and albedos. *)
Theorem daylight_hours_opposite_latitudes
    (latitude_deg elevation1 albedo1 elevation2 albedo2 : R)
    (datetime_obj : date_arg) (Ra1 N1 : R) :
  _calculate_ra_and_N (__init__ latitude_deg elevation1 albedo1) datetime_obj
    = Return (Ra1, N1) ->
  exists Ra2 N2,
    _calculate_ra_and_N (__init__ (- latitude_deg) elevation2 albedo2)
      datetime_obj = Return (Ra2, N2)
    /\ N1 + N2 = 24.
Proof.
  intros Hra.
  destruct (calculate_ra_and_N_returns _ _ _ _ Hra) as [d Hd].
  rewrite (calculate_ra_and_N_value _ _ d Hd) in Hra.
  injection Hra as _ HN. cbn [latitude_rad __init__] in HN.
  rewrite (calculate_ra_and_N_value _ _ d Hd). cbn [latitude_rad __init__].
  eexists. eexists. split; [reflexivity |].
  rewrite <- HN. unfold spec_N, math_radians. ring.
Qed.

Lemma daylight_hours_opposite_latitudes_witness :
  exists Ra2 N2,
    _calculate_ra_and_N (__init__ (Ropp 31.96) 0 0.23) (DateText "2025-07-15")
    = Return (Ra2, N2)
    /\ soreq_N 7 + N2 = 24.
Proof.
  destruct (soreq_radiation "2025-07-15" 2025 7 15 eq_refl) as [Hra _].
  exact (daylight_hours_opposite_latitudes 31.96 30 0.08 0 0.23
           (DateText "2025-07-15") (soreq_Ra 7) (soreq_N 7) Hra).
Defined.

(** The arguments of the two sines of [Ra] stay strictly between 0 and 3
    when the latitude, in radians, lies between -43/45 and 47/45. *)
Lemma sine_arguments_range (p s : R) :
  - (43 / 45) <= p <= 47 / 45 ->
  -1 <= s <= 1 ->
  0 < 4 * p * s + 12
  /\ 0 < 0.131 * (4 * p * s + 12) - 0.95 * p < 3
  /\ 0 < 0.131 * (4 * p * s + 12) - 0.2 * p < 3.
Proof.
  intros Hp Hs.
  destruct (product_with_sine p s Hs) as [Hpos Hneg].
  destruct (Rle_dec 0 p) as [H0 | H0].
  - specialize (Hpos H0). repeat split; lra.
  - assert (H0' : p <= 0) by lra. specialize (Hneg H0'). repeat split; lra.
Qed.

(** Between 43 degrees south and 47 degrees north both formulas of [Ra]
    are positive in every month, and so are the daylight hours. *)
Lemma Ra_positive_range (latitude_deg m : R) :
  -43 <= latitude_deg <= 47 ->
  let phi := math_radians latitude_deg in
  let N := spec_N phi m in
  0 < N /\ 0 < spec_Ra_temperate phi N /\ 0 < spec_Ra_tropical phi N.
Proof.
  intros [Hlo Hhi] phi N.
  pose proof PI_bounds as [Hpi3 Hpi4].
  assert (Hphi : - (43 / 45) <= phi <= 47 / 45).
  { unfold phi, math_radians.
    assert (Hk : 1 / 60 < PI / 180 <= 1 / 45) by lra.
    set (k := PI / 180) in *.
    destruct (Rle_dec 0 latitude_deg); split.
    - assert (0 <= latitude_deg * k) by (apply Rmult_le_pos; lra). lra.
    - assert (latitude_deg * k <= 47 * k)
        by (apply Rmult_le_compat_r; lra). lra.
    - assert (-43 * k <= latitude_deg * k)
        by (apply Rmult_le_compat_r; lra). lra.
    - assert (latitude_deg * k <= 0 * k)
        by (apply Rmult_le_compat_r; lra). lra. }
  pose proof (SIN_bound (0.53 * m - 1.65)) as Hs.
  destruct (sine_arguments_range phi (sin (0.53 * m - 1.65)) Hphi Hs)
    as [HNpos [Htemp Htrop]].
  fold (spec_N phi m) in HNpos, Htemp, Htrop. fold N in HNpos, Htemp, Htrop.
  split; [exact HNpos |].
  unfold spec_Ra_temperate, spec_Ra_tropical.
  assert (S1 : 0 < sin (0.131 * N - 0.95 * phi)) by (apply sin_gt_0; lra).
  assert (S2 : 0 < sin (0.131 * N - 0.2 * phi)) by (apply sin_gt_0; lra).
  split.
  - apply Rmult_lt_0_compat; [lra | exact S1].
  - apply Rmult_lt_0_compat; [| exact S2].
    apply Rmult_lt_0_compat; [lra |].
    apply Rmult_lt_0_compat; exact HNpos.
Qed.

Lemma calculate_ra_and_N_positive (latitude_deg elevation albedo : R)
    (a : date_arg) (d : date) :
  -43 <= latitude_deg <= 47 ->
  normalize_date a = Return d ->
  exists Ra N,
    _calculate_ra_and_N (__init__ latitude_deg elevation albedo) a
    = Return (Ra, N)
    /\ 0 < Ra /\ 0 < N.
Proof.
  intros Hlat Hd.
  destruct (Ra_positive_range latitude_deg (IZR (month d)) Hlat)
    as [HN [Htemp Htrop]].
  rewrite (calculate_ra_and_N_value _ a d Hd). cbn [latitude_rad __init__].
  eexists. eexists. split; [reflexivity |].
  split; [| exact HN].
  destruct (Rgt_dec (Rabs (math_radians latitude_deg)) tropic); assumption.
Qed.

(** X8.  For an engine built at a latitude between 43 degrees south and 47
    degrees north, the radiation sub-model returns a positive [Ra] and
    positive daylight hours on every accepted date: the division by [Ra]
    cannot fail there. *)
Theorem radiation_positive (latitude_deg elevation albedo : R)
    (datetime_obj : date_arg) (d : date) :
  -43 <= latitude_deg <= 47 ->
  normalize_date datetime_obj = Return d ->
  (exists Ra N,
     _calculate_ra_and_N (__init__ latitude_deg elevation albedo) datetime_obj
     = Return (Ra, N)
     /\ 0 < Ra /\ 0 < N)
  /\ forall (t_mean rh_mean rs : R) (u : option R) (wind_function : string),
       calculate_daily_evaporation (__init__ latitude_deg elevation albedo)
         datetime_obj t_mean rh_mean rs u wind_function
       <> Raise ZeroDivisionError.
Proof.
  intros Hlat Hd.
  pose proof (calculate_ra_and_N_positive latitude_deg elevation albedo
                datetime_obj d Hlat Hd) as Hpos.
  split; [exact Hpos |].
  destruct Hpos as [Ra [N [Hra [HRa HN]]]].
  intros t_mean rh_mean rs u wind_function Hcall.
  pose proof (daily_evaporation_outcome
                (__init__ latitude_deg elevation albedo) datetime_obj
                t_mean rh_mean rs u wind_function) as Hout.
  rewrite Hcall in Hout.
  inversion Hout as [ | | | N' Hra' Hw Ht | | ].
  rewrite Hra in Hra'. injection Hra' as HRa0 _. lra.
Qed.

Lemma radiation_positive_witness :
  exists Ra N,
    _calculate_ra_and_N (__init__ (-33.9) 10 0.23) (DateText "2025-01-15")
    = Return (Ra, N)
    /\ 0 < Ra /\ 0 < N.
Proof.
  assert (Hlat : -43 <= -33.9 <= 47) by lra.
  exact (proj1 (radiation_positive (-33.9) 10 0.23 (DateText "2025-01-15")
                  (mkdate 2025 1 15) Hlat eq_refl)).
Defined.

(** X9.  At such a latitude, on an accepted date, with a recognized wind
    function or no wind speed and a square [(rs / Ra)^2] within the range of
    binary64, the only thing that decides whether a value is returned is
    the temperature: the call returns exactly when [t_mean >= -9.5], and
    fails with a numeric-domain error otherwise. *)
Theorem returns_iff_temperature (latitude_deg elevation albedo : R)
    (datetime_obj : date_arg) (t_mean rh_mean rs Ra N : R)
    (u : option R) (wind_function : string) :
  -43 <= latitude_deg <= 47 ->
  _calculate_ra_and_N (__init__ latitude_deg elevation albedo) datetime_obj
    = Return (Ra, N) ->
  u = None \/ recognized wind_function ->
  Rsqr (rs / Ra) <= float_max ->
  (returns_value
     (calculate_daily_evaporation (__init__ latitude_deg elevation albedo)
        datetime_obj t_mean rh_mean rs u wind_function)
   <-> -9.5 <= t_mean)
  /\ (t_mean < -9.5 ->
      fails_with
        (calculate_daily_evaporation (__init__ latitude_deg elevation albedo)
           datetime_obj t_mean rh_mean rs u wind_function)
        NumericDomainError).
Proof.
  intros Hlat Hra Hw Hsq.
  destruct (calculate_ra_and_N_returns _ _ _ _ Hra) as [d Hd].
  destruct (calculate_ra_and_N_positive latitude_deg elevation albedo
              datetime_obj d Hlat Hd) as [Ra' [N' [Hra' [HRa HN]]]].
  rewrite Hra in Hra'. injection Hra' as <- <-.
  assert (Hcold : t_mean < -9.5 ->
            calculate_daily_evaporation (__init__ latitude_deg elevation albedo)
              datetime_obj t_mean rh_mean rs u wind_function
            = Raise MathDomainError).
  { intros Ht. apply (outcome_sqrt_error _ _ Ra N); [exact Hra | exact Hw | lra]. }
  split; [split |].
  - intros [v Hv]. destruct (Rlt_dec t_mean (-9.5)) as [Ht | Ht]; [| lra].
    rewrite (Hcold Ht) in Hv. discriminate.
  - intros Ht.
    destruct (outcome_value _ datetime_obj Ra N t_mean rh_mean rs u
                wind_function Hra Hw) as [raw [_ [_ Hcall]]];
      [lra | lra | exact (square_in_range _ Hsq) |].
    exists (max0 raw). exact Hcall.
  - intros Ht. rewrite (Hcold Ht). apply (raise_fails_with MathDomainError).
Qed.

Lemma returns_iff_temperature_witness :
  returns_value
    (calculate_daily_evaporation (__init__ 31.96 30 0.08)
       (DateText "2025-07-15") (-9.5) 45 22 (Some 2.5) "linacre1993").
Proof.
  destruct (soreq_call "2025-07-15" 2025 7 15 22 eq_refl Rabs_22)
    as [Hra [[Hlo Hhi] Hsq]].
  assert (Hlat : -43 <= 31.96 <= 47) by lra.
  assert (Hw : Some 2.5 = None \/ recognized "linacre1993").
  { right. exists linacre1993. reflexivity. }
  apply (proj2 (proj1 (returns_iff_temperature 31.96 30 0.08
                         (DateText "2025-07-15") (-9.5) 45 22
                         (soreq_Ra 7) (soreq_N 7) (Some 2.5) "linacre1993"
                         Hlat Hra Hw Hsq))).
  lra.
Defined.

(** ** How the result depends on each argument *)

(** What a returned value tells about the call. *)
Lemma daily_evaporation_return_inv (self : PenmanEvaporation) (a : date_arg)
    (t_mean rh_mean rs : R) (u : option R) (wind_function : string) (v : R) :
  calculate_daily_evaporation self a t_mean rh_mean rs u wind_function
    = Return v ->
  exists Ra N raw,
    _calculate_ra_and_N self a = Return (Ra, N)
    /\ Ra <> 0 /\ 0 <= t_mean + 9.5
    /\ ~ pow2_overflows (rs / Ra)
    /\ branch_formula self t_mean rh_mean rs Ra u wind_function raw
    /\ v = max0 raw.
Proof.
  intros Hv. unfold calculate_daily_evaporation in Hv.
  destruct (e_pen self a t_mean rh_mean rs u wind_function) as [raw | e]
    eqn:He; [| discriminate].
  cbn [bind] in Hv. injection Hv as <-.
  destruct (e_pen_returns_in_range _ _ _ _ _ _ _ _ He)
    as [Ra [N [Hra [Hnz [Ht [Hov Hf]]]]]].
  exists Ra, N, raw. repeat split; assumption.
Qed.

Lemma daily_evaporation_wind_value (self : PenmanEvaporation) (a : date_arg)
    (t_mean rh_mean rs u Ra N : R) (w : WindFunction) :
  _calculate_ra_and_N self a = Return (Ra, N) ->
  Ra <> 0 -> 0 <= t_mean + 9.5 ->
  ~ pow2_overflows (rs / Ra) ->
  calculate_daily_evaporation self a t_mean rh_mean rs (Some u) (wind_name w)
  = Return (max0 (spec_e_pen_wind (albedo self) (elevation self) t_mean
                    rh_mean rs Ra (spec_a_u w) (spec_b_u w) u)).
Proof.
  intros Hra Hnz Ht Hov. unfold calculate_daily_evaporation.
  rewrite (e_pen_wind_value _ _ _ _ _ _ _ _ _ Hra Hnz Ht Hov). reflexivity.
Qed.

Lemma daily_evaporation_nowind_value (self : PenmanEvaporation) (a : date_arg)
    (t_mean rh_mean rs Ra N : R) (wind_function : string) :
  _calculate_ra_and_N self a = Return (Ra, N) ->
  Ra <> 0 -> 0 <= t_mean + 9.5 ->
  ~ pow2_overflows (rs / Ra) ->
  calculate_daily_evaporation self a t_mean rh_mean rs None wind_function
  = Return (max0 (spec_e_pen_nowind (elevation self) t_mean rh_mean rs Ra)).
Proof.
  intros Hra Hnz Ht Hov. unfold calculate_daily_evaporation.
  rewrite (e_pen_nowind_value _ _ _ _ _ _ _ wind_function Hra Hnz Ht Hov).
  reflexivity.
Qed.

(** The aerodynamic term grows with its last factor when the first two are
    not negative. *)
Lemma aerodynamic_term_monotone (c A B W1 W2 : R) :
  0 <= c -> 0 <= A -> 0 <= B -> W1 <= W2 ->
  c * A * B * W1 <= c * A * B * W2.
Proof.
  intros Hc HA HB HW.
  apply Rmult_le_compat_l; [| exact HW].
  apply Rmult_le_pos; [apply Rmult_le_pos |]; assumption.
Qed.

(** X10.  The date enters the result through its month only: two accepted
    dates of the same month, in any years and on any days, text or
    structured, give the same outcome. *)
Theorem date_through_month_only (self : PenmanEvaporation)
    (date1 date2 : date_arg) (d1 d2 : date) (t_mean rh_mean rs : R)
    (u : option R) (wind_function : string) :
  normalize_date date1 = Return d1 ->
  normalize_date date2 = Return d2 ->
  month d1 = month d2 ->
  _calculate_ra_and_N self date1 = _calculate_ra_and_N self date2
  /\ calculate_daily_evaporation self date1 t_mean rh_mean rs u wind_function
     = calculate_daily_evaporation self date2 t_mean rh_mean rs u
         wind_function.
Proof.
  intros H1 H2 Hm.
  assert (Hsub : _calculate_ra_and_N self date1
                 = _calculate_ra_and_N self date2).
  { rewrite (calculate_ra_and_N_value self date1 d1 H1),
            (calculate_ra_and_N_value self date2 d2 H2), Hm.
    reflexivity. }
  split; [exact Hsub |].
  unfold calculate_daily_evaporation, e_pen. rewrite Hsub. reflexivity.
Qed.

Lemma date_through_month_only_witness :
  calculate_daily_evaporation soreq (DateText "2025-07-15") 28 45 22
    (Some 2.5) "penman1948"
  = calculate_daily_evaporation soreq (DateValue (mkdate 1999 7 1)) 28 45 22
      (Some 2.5) "penman1948".
Proof.
  exact (proj2 (date_through_month_only soreq (DateText "2025-07-15")
                  (DateValue (mkdate 1999 7 1)) (mkdate 2025 7 15)
                  (mkdate 1999 7 1) 28 45 22 (Some 2.5) "penman1948"
                  eq_refl eq_refl eq_refl)).
Defined.

(** X11.  At the equator the date plays no part: the daylight hours are 12
    and [Ra] is [118 * 12^2 * sin 1.572] on every accepted date, so the
    outcome of a call is the same on all of them. *)
Theorem equator_date_independent (elevation albedo : R)
    (date1 date2 : date_arg) (d1 d2 : date) (t_mean rh_mean rs : R)
    (u : option R) (wind_function : string) :
  normalize_date date1 = Return d1 ->
  normalize_date date2 = Return d2 ->
  _calculate_ra_and_N (__init__ 0 elevation albedo) date1
    = Return (118 * 12 ^ 2 * sin 1.572, 12)
  /\ calculate_daily_evaporation (__init__ 0 elevation albedo) date1
       t_mean rh_mean rs u wind_function
     = calculate_daily_evaporation (__init__ 0 elevation albedo) date2
         t_mean rh_mean rs u wind_function.
Proof.
  intros H1 H2.
  pose proof PI_bounds as [Hpi _].
  assert (Hsub : forall (a : date_arg) (d : date),
            normalize_date a = Return d ->
            _calculate_ra_and_N (__init__ 0 elevation albedo) a
            = Return (118 * 12 ^ 2 * sin 1.572, 12)).
  { intros a d Hd. rewrite (calculate_ra_and_N_value _ a d Hd).
    cbn [latitude_rad __init__].
    assert (Hphi : math_radians 0 = 0) by (unfold math_radians; ring).
    rewrite Hphi.
    assert (HN : spec_N 0 (IZR (month d)) = 12) by (unfold spec_N; ring).
    rewrite HN.
    destruct (Rgt_dec (Rabs 0) tropic) as [Hz | _].
    - exfalso. rewrite Rabs_R0 in Hz. unfold tropic in Hz. lra.
    - unfold spec_Ra_tropical. do 2 f_equal.
      replace (0.131 * 12 - 0.2 * 0) with 1.572 by lra. ring. }
  split; [exact (Hsub date1 d1 H1) |].
  unfold calculate_daily_evaporation, e_pen.
  rewrite (Hsub date1 d1 H1), (Hsub date2 d2 H2). reflexivity.
Qed.

Lemma equator_date_independent_witness :
  calculate_daily_evaporation (__init__ 0 5 0.08) (DateText "2025-01-01")
    26 80 18 None "penman1948"
  = calculate_daily_evaporation (__init__ 0 5 0.08) (DateText "2025-07-15")
      26 80 18 None "penman1948".
Proof.
  exact (proj2 (equator_date_independent 5 0.08 (DateText "2025-01-01")
                  (DateText "2025-07-15") (mkdate 2025 1 1) (mkdate 2025 7 15)
                  26 80 18 None "penman1948" eq_refl eq_refl)).
Defined.

Lemma wind_name_injective (w1 w2 : WindFunction) :
  wind_name w1 = wind_name w2 -> w1 = w2.
Proof. destruct w1; destruct w2; simpl; intros H; congruence. Qed.

Lemma spec_b_u_positive (w : WindFunction) : 0 < spec_b_u w.
Proof. destruct w; simpl; lra. Qed.

Lemma branch_formula_wind_function (self : PenmanEvaporation)
    (t_mean rh_mean rs Ra : R) (u : option R) (wind_function : string)
    (raw : R) :
  branch_formula self t_mean rh_mean rs Ra u wind_function raw ->
  u = None \/ recognized wind_function.
Proof.
  destruct u as [u |]; simpl; [| left; reflexivity].
  intros [w [Hw _]]. right. exists w. exact Hw.
Qed.

(** X12.  A higher site never gives a lower result: with the same latitude,
    albedo, date and weather, raising the elevation from [h1] to [h2] keeps
    the call returning and does not lower the result. *)
Theorem elevation_monotone (latitude_deg albedo h1 h2 : R)
    (datetime_obj : date_arg) (t_mean rh_mean rs : R) (u : option R)
    (wind_function : string) (v1 : R) :
  h1 <= h2 ->
  calculate_daily_evaporation (__init__ latitude_deg h1 albedo) datetime_obj
    t_mean rh_mean rs u wind_function = Return v1 ->
  exists v2,
    calculate_daily_evaporation (__init__ latitude_deg h2 albedo) datetime_obj
      t_mean rh_mean rs u wind_function = Return v2
    /\ v1 <= v2.
Proof.
  intros Hh Hv1.
  destruct (daily_evaporation_return_inv _ _ _ _ _ _ _ _ Hv1)
    as [Ra [N [raw1 [Hra [Hnz [Ht [Hov [Hf1 ->]]]]]]]].
  pose proof (branch_formula_wind_function _ _ _ _ _ _ _ _ Hf1) as Hw.
  assert (Hra2 : _calculate_ra_and_N (__init__ latitude_deg h2 albedo)
                   datetime_obj = Return (Ra, N)).
  { rewrite <- Hra. apply calculate_ra_and_N_site. reflexivity. }
  destruct (outcome_value _ _ Ra N t_mean rh_mean rs u wind_function
              Hra2 Hw Ht Hnz Hov) as [raw2 [_ [Hf2 Hcall]]].
  exists (max0 raw2). split; [exact Hcall |].
  assert (Hdiff : raw2 - raw1 = 0.00012 * (h2 - h1)).
  { destruct u as [u |]; simpl in Hf1, Hf2.
    - destruct Hf1 as [w1 [Hw1 ->]]. destruct Hf2 as [w2 [Hw2 ->]].
      rewrite Hw1 in Hw2. apply wind_name_injective in Hw2. subst w2.
      apply spec_e_pen_wind_elevation.
    - subst raw1 raw2. apply spec_e_pen_nowind_elevation. }
  apply max0_monotone. lra.
Qed.

Lemma elevation_monotone_witness :
  exists v2,
    calculate_daily_evaporation (__init__ 31.96 800 0.08)
      (DateText "2025-07-15") 28 45 22 (Some 2.5) "penman1948" = Return v2
    /\ max0 (spec_e_pen_wind 0.08 30 28 45 22 (soreq_Ra 7) 1 0.536 2.5) <= v2.
Proof.
  destruct (soreq_radiation "2025-07-15" 2025 7 15 eq_refl) as [Hra Hpos].
  pose proof (soreq_in_range 22 7 Rabs_22) as Hov.
  assert (Hnz : soreq_Ra 7 <> 0) by lra.
  assert (Ht : 0 <= 28 + 9.5) by lra.
  assert (Hh : 30 <= 800) by lra.
  exact (elevation_monotone 31.96 0.08 30 800 (DateText "2025-07-15")
           28 45 22 (Some 2.5) "penman1948" _ Hh
           (daily_evaporation_wind_value soreq _ 28 45 22 2.5 _ _ penman1948
              Hra Hnz Ht Hov)).
Defined.

(** X13.  More wind never gives less evaporation: with relative humidity at
    most 100 and everything else the same, a call that returns at wind speed
    [u1] returns at every [u2 >= u1], with a result at least as large. *)
Theorem wind_speed_monotone (self : PenmanEvaporation)
    (datetime_obj : date_arg) (t_mean rh_mean rs u1 u2 : R)
    (wind_function : string) (v1 : R) :
  rh_mean <= 100 ->
  u1 <= u2 ->
  calculate_daily_evaporation self datetime_obj t_mean rh_mean rs (Some u1)
    wind_function = Return v1 ->
  exists v2,
    calculate_daily_evaporation self datetime_obj t_mean rh_mean rs (Some u2)
      wind_function = Return v2
    /\ v1 <= v2.
Proof.
  intros Hrh Hu Hv1.
  destruct (daily_evaporation_return_inv _ _ _ _ _ _ _ _ Hv1)
    as [Ra [N [raw1 [Hra [Hnz [Ht [Hov [Hf1 ->]]]]]]]].
  simpl in Hf1. destruct Hf1 as [w [-> ->]].
  rewrite (daily_evaporation_wind_value self _ t_mean rh_mean rs u2 Ra N w
             Hra Hnz Ht Hov).
  eexists. split; [reflexivity |].
  apply max0_monotone.
  pose proof (spec_e_pen_wind_speed (albedo self) (elevation self) t_mean
                rh_mean rs Ra (spec_a_u w) (spec_b_u w) u1 u2) as Hd.
  pose proof (spec_b_u_positive w) as Hb.
  assert (Hpos : 0 <= 0.052 * (t_mean + 20) * (1 - rh_mean / 100)
                      * (spec_b_u w * (u2 - u1))).
  { apply product3_nonneg; try lra. apply Rmult_le_pos; lra. }
  lra.
Qed.

Lemma wind_speed_monotone_witness :
  exists v2,
    calculate_daily_evaporation soreq (DateText "2025-07-15") 28 45 22
      (Some 6) "penman1948" = Return v2
    /\ max0 (spec_e_pen_wind 0.08 30 28 45 22 (soreq_Ra 7) 1 0.536 2.5) <= v2.
Proof.
  destruct (soreq_radiation "2025-07-15" 2025 7 15 eq_refl) as [Hra Hpos].
  pose proof (soreq_in_range 22 7 Rabs_22) as Hov.
  assert (Hnz : soreq_Ra 7 <> 0) by lra.
  assert (Ht : 0 <= 28 + 9.5) by lra.
  assert (Hrh : 45 <= 100) by lra.
  assert (Hu : 2.5 <= 6) by lra.
  exact (wind_speed_monotone soreq (DateText "2025-07-15") 28 45 22 2.5 6
           "penman1948" _ Hrh Hu
           (daily_evaporation_wind_value soreq _ 28 45 22 2.5 _ _ penman1948
              Hra Hnz Ht Hov)).
Defined.

(** X14.  The three wind functions are ordered: with relative humidity at
    most 100 and the same other arguments, the result with penman1948 is at
    least the result with penman1956, and for wind speeds up to 125 m/s the
    result with penman1956 is at least the one with linacre1993. *)
Theorem wind_functions_ordered (self : PenmanEvaporation)
    (datetime_obj : date_arg) (t_mean rh_mean rs u v48 : R) :
  rh_mean <= 100 ->
  calculate_daily_evaporation self datetime_obj t_mean rh_mean rs (Some u)
    "penman1948" = Return v48 ->
  exists v56 v93,
    calculate_daily_evaporation self datetime_obj t_mean rh_mean rs (Some u)
      "penman1956" = Return v56
    /\ calculate_daily_evaporation self datetime_obj t_mean rh_mean rs
         (Some u) "linacre1993" = Return v93
    /\ v56 <= v48
    /\ (u <= 125 -> v93 <= v56).
Proof.
  intros Hrh Hv.
  destruct (daily_evaporation_return_inv _ _ _ _ _ _ _ _ Hv)
    as [Ra [N [raw [Hra [Hnz [Ht [Hov [_ _]]]]]]]].
  pose proof (daily_evaporation_wind_value self _ t_mean rh_mean rs u Ra N
                penman1948 Hra Hnz Ht Hov) as E48.
  pose proof (daily_evaporation_wind_value self _ t_mean rh_mean rs u Ra N
                penman1956 Hra Hnz Ht Hov) as E56.
  pose proof (daily_evaporation_wind_value self _ t_mean rh_mean rs u Ra N
                linacre1993 Hra Hnz Ht Hov) as E93.
  change (wind_name penman1948) with "penman1948"%string in E48.
  change (wind_name penman1956) with "penman1956"%string in E56.
  change (wind_name linacre1993) with "linacre1993"%string in E93.
  rewrite E48 in Hv. injection Hv as <-.
  eexists. eexists.
  split; [exact E56 | split; [exact E93 | split]].
  - apply max0_monotone. cbn [spec_a_u spec_b_u].
    pose proof (spec_e_pen_wind_coefficient (albedo self) (elevation self)
                  t_mean rh_mean rs Ra 1 0.5 0.536 0.536 u) as Hd.
    assert (Hpos : 0 <= 0.052 * (t_mean + 20) * (1 - rh_mean / 100)
                        * (1 - 0.5 + (0.536 - 0.536) * u))
      by (apply product3_nonneg; lra).
    lra.
  - intros Hu. apply max0_monotone. cbn [spec_a_u spec_b_u].
    pose proof (spec_e_pen_wind_coefficient (albedo self) (elevation self)
                  t_mean rh_mean rs Ra 0.5 0 0.536 0.54 u) as Hd.
    assert (Hpos : 0 <= 0.052 * (t_mean + 20) * (1 - rh_mean / 100)
                        * (0.5 - 0 + (0.536 - 0.54) * u))
      by (apply product3_nonneg; lra).
    lra.
Qed.

Lemma wind_functions_ordered_witness :
  exists v56 v93,
    calculate_daily_evaporation soreq (DateText "2025-07-15") 28 45 22
      (Some 2.5) "penman1956" = Return v56
    /\ calculate_daily_evaporation soreq (DateText "2025-07-15") 28 45 22
         (Some 2.5) "linacre1993" = Return v93
    /\ v56 <= max0 (spec_e_pen_wind 0.08 30 28 45 22 (soreq_Ra 7) 1 0.536 2.5)
    /\ (2.5 <= 125 -> v93 <= v56).
Proof.
  destruct (soreq_radiation "2025-07-15" 2025 7 15 eq_refl) as [Hra Hpos].
  pose proof (soreq_in_range 22 7 Rabs_22) as Hov.
  assert (Hnz : soreq_Ra 7 <> 0) by lra.
  assert (Ht : 0 <= 28 + 9.5) by lra.
  assert (Hrh : 45 <= 100) by lra.
  exact (wind_functions_ordered soreq (DateText "2025-07-15") 28 45 22 2.5 _
           Hrh
           (daily_evaporation_wind_value soreq _ 28 45 22 2.5 _ _ penman1948
              Hra Hnz Ht Hov)).
Defined.

(** X15.  Without solar radiation ([rs = 0]) the radiation terms vanish: a
    call that returns gives [max(0, term3 + 0.00012 elevation)], a value in
    which neither the albedo nor the radiation [Ra] of the date appears. *)
Theorem no_solar_radiation (self : PenmanEvaporation) (datetime_obj : date_arg)
    (t_mean rh_mean : R) (u : option R) (wind_function : string) (v : R) :
  calculate_daily_evaporation self datetime_obj t_mean rh_mean 0 u
    wind_function = Return v ->
  match u with
  | Some wind =>
      exists w,
        wind_function = wind_name w
        /\ v = Rmax 0 (0.052 * (t_mean + 20) * (1 - rh_mean / 100)
                       * (spec_a_u w - 0.38 + spec_b_u w * wind)
                       + 0.00012 * elevation self)
  | None =>
      v = Rmax 0 (0.09 * (t_mean + 20) * (1 - rh_mean / 100)
                  + 0.00012 * elevation self)
  end.
Proof.
  intros Hv.
  destruct (daily_evaporation_return_inv _ _ _ _ _ _ _ _ Hv)
    as [Ra [N [raw [Hra [Hnz [Ht [Hov [Hf ->]]]]]]]].
  assert (Hq : Rsqr (0 / Ra) = 0) by (unfold Rsqr, Rdiv; ring).
  rewrite max0_Rmax.
  destruct u as [wind |]; simpl in Hf.
  - destruct Hf as [w [Hw ->]]. exists w. split; [exact Hw |].
    f_equal. unfold spec_e_pen_wind. rewrite Hq. ring.
  - subst raw. f_equal. unfold spec_e_pen_nowind. rewrite Hq. ring.
Qed.

Lemma no_solar_radiation_witness :
  max0 (spec_e_pen_nowind 30 28 45 0 (soreq_Ra 7))
  = Rmax 0 (0.09 * (28 + 20) * (1 - 45 / 100) + 0.00012 * 30).
Proof.
  destruct (soreq_radiation "2025-07-15" 2025 7 15 eq_refl) as [Hra Hpos].
  pose proof (soreq_in_range 0 7 (Rabs_small 0 ltac:(lra))) as Hov.
  assert (Hnz : soreq_Ra 7 <> 0) by lra.
  assert (Ht : 0 <= 28 + 9.5) by lra.
  exact (no_solar_radiation soreq (DateText "2025-07-15") 28 45 None
           "penman1948" _
           (daily_evaporation_nowind_value soreq _ 28 45 0 _ _ "penman1948"
              Hra Hnz Ht Hov)).
Defined.

(** X16.  In the wind-aware branch a more reflective surface never gives
    more evaporation: with solar radiation not negative and everything else
    the same, raising the albedo keeps the call returning and does not raise
    the result. *)
Theorem albedo_monotone (latitude_deg height albedo1 albedo2 : R)
    (datetime_obj : date_arg) (t_mean rh_mean rs u : R)
    (wind_function : string) (v1 : R) :
  0 <= rs ->
  albedo1 <= albedo2 ->
  calculate_daily_evaporation (__init__ latitude_deg height albedo1)
    datetime_obj t_mean rh_mean rs (Some u) wind_function = Return v1 ->
  exists v2,
    calculate_daily_evaporation (__init__ latitude_deg height albedo2)
      datetime_obj t_mean rh_mean rs (Some u) wind_function = Return v2
    /\ v2 <= v1.
Proof.
  intros Hrs Hal Hv1.
  destruct (daily_evaporation_return_inv _ _ _ _ _ _ _ _ Hv1)
    as [Ra [N [raw1 [Hra [Hnz [Ht [Hov [Hf1 ->]]]]]]]].
  simpl in Hf1. destruct Hf1 as [w [-> ->]].
  assert (Hra2 : _calculate_ra_and_N (__init__ latitude_deg height albedo2)
                   datetime_obj = Return (Ra, N)).
  { rewrite <- Hra. apply calculate_ra_and_N_site. reflexivity. }
  rewrite (daily_evaporation_wind_value _ _ t_mean rh_mean rs u Ra N w
             Hra2 Hnz Ht Hov).
  eexists. split; [reflexivity |].
  apply max0_monotone. cbn [albedo elevation __init__].
  pose proof (spec_e_pen_wind_albedo albedo1 albedo2 height t_mean rh_mean
                rs Ra (spec_a_u w) (spec_b_u w) u) as Hd.
  pose proof (sqrt_pos (t_mean + 9.5)) as Hroot.
  assert (Hpos : 0 <= 0.051 * (albedo2 - albedo1) * rs * sqrt (t_mean + 9.5))
    by (apply product3_nonneg; lra).
  lra.
Qed.

Lemma albedo_monotone_witness :
  exists v2,
    calculate_daily_evaporation (__init__ 31.96 30 0.23)
      (DateText "2025-07-15") 28 45 22 (Some 2.5) "penman1948" = Return v2
    /\ v2 <= max0 (spec_e_pen_wind 0.08 30 28 45 22 (soreq_Ra 7) 1 0.536 2.5).
Proof.
  destruct (soreq_radiation "2025-07-15" 2025 7 15 eq_refl) as [Hra Hpos].
  pose proof (soreq_in_range 22 7 Rabs_22) as Hov.
  assert (Hnz : soreq_Ra 7 <> 0) by lra.
  assert (Ht : 0 <= 28 + 9.5) by lra.
  assert (Hrs : 0 <= 22) by lra.
  assert (Hal : 0.08 <= 0.23) by lra.
  exact (albedo_monotone 31.96 30 0.08 0.23 (DateText "2025-07-15")
           28 45 22 2.5 "penman1948" _ Hrs Hal
           (daily_evaporation_wind_value soreq _ 28 45 22 2.5 _ _ penman1948
              Hra Hnz Ht Hov)).
Defined.

(** X17.  More humid air never gives more evaporation, when wind speed is
    absent, or with penman1948 or penman1956 at a wind speed that is not
    negative, or with linacre1993 at a wind speed of at least 0.38/0.54:
    raising the relative humidity keeps the call returning and does not
    raise the result. *)
Theorem humidity_monotone (self : PenmanEvaporation) (datetime_obj : date_arg)
    (t_mean rh1 rh2 rs : R) (u : option R) (wind_function : string) (v1 : R) :
  rh1 <= rh2 ->
  (u = None
   \/ exists wind,
        u = Some wind
        /\ ((0 <= wind /\ (wind_function = "penman1948"%string
                           \/ wind_function = "penman1956"%string))
            \/ (0.38 <= 0.54 * wind
                /\ wind_function = "linacre1993"%string))) ->
  calculate_daily_evaporation self datetime_obj t_mean rh1 rs u wind_function
    = Return v1 ->
  exists v2,
    calculate_daily_evaporation self datetime_obj t_mean rh2 rs u
      wind_function = Return v2
    /\ v2 <= v1.
Proof.
  intros Hrh Hside Hv1.
  destruct (daily_evaporation_return_inv _ _ _ _ _ _ _ _ Hv1)
    as [Ra [N [raw1 [Hra [Hnz [Ht [Hov [Hf1 ->]]]]]]]].
  destruct u as [wind |]; simpl in Hf1.
  - destruct Hf1 as [w [Hw ->]].
    assert (Hfactor : 0 <= spec_a_u w - 0.38 + spec_b_u w * wind).
    { destruct Hside as [Hnone | [wind' [Hsome Hcases]]]; [discriminate |].
      injection Hsome as <-.
      destruct Hcases as [[Hwind [H48 | H56]] | [Hwind H93]];
        rewrite Hw in *;
        destruct w; simpl in *; try discriminate; lra. }
    subst wind_function.
    rewrite (daily_evaporation_wind_value self _ t_mean rh2 rs wind Ra N w
               Hra Hnz Ht Hov).
    eexists. split; [reflexivity |].
    apply max0_monotone.
    pose proof (spec_e_pen_wind_humidity (albedo self) (elevation self) t_mean
                  rh1 rh2 rs Ra (spec_a_u w) (spec_b_u w) wind) as Hd.
    assert (Hpos : 0 <= 0.052 * (t_mean + 20) * ((rh2 - rh1) / 100)
                        * (spec_a_u w - 0.38 + spec_b_u w * wind))
      by (apply product3_nonneg; lra).
    lra.
  - subst raw1.
    rewrite (daily_evaporation_nowind_value self _ t_mean rh2 rs Ra N
               wind_function Hra Hnz Ht Hov).
    eexists. split; [reflexivity |].
    apply max0_monotone.
    pose proof (spec_e_pen_nowind_humidity (elevation self) t_mean rh1 rh2 rs
                  Ra) as Hd.
    assert (Hpos : 0 <= 0.09 * (t_mean + 20) * ((rh2 - rh1) / 100)).
    { apply Rmult_le_pos; [apply Rmult_le_pos |]; lra. }
    lra.
Qed.

Lemma humidity_monotone_witness :
  exists v2,
    calculate_daily_evaporation soreq (DateText "2025-07-15") 28 80 22
      (Some 2.5) "penman1948" = Return v2
    /\ v2 <= max0 (spec_e_pen_wind 0.08 30 28 45 22 (soreq_Ra 7) 1 0.536 2.5).
Proof.
  destruct (soreq_radiation "2025-07-15" 2025 7 15 eq_refl) as [Hra Hpos].
  pose proof (soreq_in_range 22 7 Rabs_22) as Hov.
  assert (Hnz : soreq_Ra 7 <> 0) by lra.
  assert (Ht : 0 <= 28 + 9.5) by lra.
  assert (Hrh : 45 <= 80) by lra.
  assert (Hwind : 0 <= 2.5) by lra.
  exact (humidity_monotone soreq (DateText "2025-07-15") 28 45 80 22
           (Some 2.5) "penman1948" _ Hrh
           (or_intror (ex_intro _ 2.5
              (conj eq_refl (or_introl (conj Hwind (or_introl eq_refl))))))
           (daily_evaporation_wind_value soreq _ 28 45 22 2.5 _ _ penman1948
              Hra Hnz Ht Hov)).
Defined.

(** X18.  With linacre1993 and a wind speed of at most 0.38/0.54 the factor
    [a_u - 0.38 + b_u u] is not positive, and the dependence on humidity is
    reversed: raising the relative humidity keeps the call returning and
    does not lower the result. *)
Theorem linacre_low_wind_humidity (self : PenmanEvaporation)
    (datetime_obj : date_arg) (t_mean rh1 rh2 rs wind v1 : R) :
  0.54 * wind <= 0.38 ->
  rh1 <= rh2 ->
  calculate_daily_evaporation self datetime_obj t_mean rh1 rs (Some wind)
    "linacre1993" = Return v1 ->
  exists v2,
    calculate_daily_evaporation self datetime_obj t_mean rh2 rs (Some wind)
      "linacre1993" = Return v2
    /\ v1 <= v2.
Proof.
  intros Hwind Hrh Hv1.
  destruct (daily_evaporation_return_inv _ _ _ _ _ _ _ _ Hv1)
    as [Ra [N [raw1 [Hra [Hnz [Ht [Hov [_ _]]]]]]]].
  pose proof (daily_evaporation_wind_value self _ t_mean rh1 rs wind Ra N
                linacre1993 Hra Hnz Ht Hov) as E1.
  pose proof (daily_evaporation_wind_value self _ t_mean rh2 rs wind Ra N
                linacre1993 Hra Hnz Ht Hov) as E2.
  change (wind_name linacre1993) with "linacre1993"%string in E1, E2.
  cbn [spec_a_u spec_b_u] in E1, E2.
  rewrite E1 in Hv1. injection Hv1 as <-.
  eexists. split; [exact E2 |].
  apply max0_monotone.
  pose proof (spec_e_pen_wind_humidity (albedo self) (elevation self) t_mean
                rh1 rh2 rs Ra 0 0.54 wind) as Hd.
  assert (Hpos : 0 <= 0.052 * (t_mean + 20) * ((rh2 - rh1) / 100)
                      * (0.38 - 0.54 * wind))
    by (apply product3_nonneg; lra).
  lra.
Qed.

Lemma linacre_low_wind_humidity_witness :
  exists v2,
    calculate_daily_evaporation soreq (DateText "2025-07-15") 28 80 22
      (Some 0.5) "linacre1993" = Return v2
    /\ max0 (spec_e_pen_wind 0.08 30 28 45 22 (soreq_Ra 7) 0 0.54 0.5) <= v2.
Proof.
  destruct (soreq_radiation "2025-07-15" 2025 7 15 eq_refl) as [Hra Hpos].
  pose proof (soreq_in_range 22 7 Rabs_22) as Hov.
  assert (Hnz : soreq_Ra 7 <> 0) by lra.
  assert (Ht : 0 <= 28 + 9.5) by lra.
  assert (Hwind : 0.54 * 0.5 <= 0.38) by lra.
  assert (Hrh : 45 <= 80) by lra.
  exact (linacre_low_wind_humidity soreq (DateText "2025-07-15")
           28 45 80 22 0.5 _ Hwind Hrh
           (daily_evaporation_wind_value soreq _ 28 45 22 0.5 _ _ linacre1993
              Hra Hnz Ht Hov)).
Defined.

(** ** The driver of [main.py] *)

Lemma penman_radiation (d : date) :
  _calculate_ra_and_N penman (DateValue d)
  = Return (soreq_Ra (month d), soreq_N (month d))
  /\ 0 < soreq_Ra (month d) <= 48.
Proof.
  destruct (Ra_mid_latitudes 31.96 (IZR (month d))) as [Hzone Hra]; [lra |].
  split; [| exact Hra].
  rewrite (calculate_ra_and_N_value penman (DateValue d) d eq_refl).
  change (latitude_rad penman) with (math_radians 31.96).
  destruct (Rgt_dec (Rabs (math_radians 31.96)) tropic) as [_ | Hn];
    [reflexivity | contradiction].
Qed.

Lemma row_evaporation_cases (r : row) :
  (Rabs (global_radiation r) <= 1e150 ->
   -9.5 <= temperature r ->
   calculate_row_evaporation r
   = Return (max0 (spec_e_pen_wind 0.08 30 (temperature r)
                     (relative_humidity r) (global_radiation r)
                     (soreq_Ra (month (name r))) 1 0.536 (wind_speed r))))
  /\ (temperature r < -9.5 ->
      calculate_row_evaporation r = Raise MathDomainError).
Proof.
  destruct (penman_radiation (name r)) as [Hra [Hpos _]].
  unfold calculate_row_evaporation.
  change default_wind_function with (wind_name penman1948).
  split.
  - intros Hrs Ht.
    rewrite (daily_evaporation_wind_value penman _ (temperature r)
               (relative_humidity r) (global_radiation r) (wind_speed r)
               _ _ penman1948 Hra); [reflexivity | lra | lra |].
    apply soreq_in_range. exact Hrs.
  - intros Ht.
    apply (outcome_sqrt_error penman _ _ _ _ _ _ _ _ Hra); [| lra].
    right. exists penman1948. reflexivity.
Qed.

(** X19.  For every row of the daily table whose radiation is at most
    1e150 in magnitude, the evaporation of the row is the wind-aware
    formula with the coefficients of penman1948 at the site of latitude
    31.96, elevation 30 and albedo 0.08, clamped at 0, when the mean
    temperature is at least -9.5; below that the row raises the square-root
    error.  The radiation [Ra] of the row is at least 1, so no such row
    fails on its date, on the wind function, on a division by zero or on an
    overflow. *)
Theorem row_evaporation (r : row) :
  Rabs (global_radiation r) <= 1e150 ->
  let Ra := soreq_Ra (month (name r)) in
  1 <= Ra
  /\ (-9.5 <= temperature r ->
      calculate_row_evaporation r
      = Return (Rmax 0
          (0.051 * (1 - 0.08) * global_radiation r * sqrt (temperature r + 9.5)
           - 2.4 * Rsqr (global_radiation r / Ra)
           + 0.052 * (temperature r + 20) * (1 - relative_humidity r / 100)
             * (1 - 0.38 + 0.536 * wind_speed r)
           + 0.00012 * 30)))
  /\ (temperature r < -9.5 ->
      calculate_row_evaporation r = Raise MathDomainError).
Proof.
  intros Hrs Ra.
  destruct (row_evaporation_cases r) as [Hwarm Hcold].
  split; [| split; [| exact Hcold]].
  - apply (Ra_mid_latitudes_lower 31.96 (IZR (month (name r)))). lra.
  - intros Ht. rewrite (Hwarm Hrs Ht), max0_Rmax. reflexivity.
Qed.

Lemma row_evaporation_witness :
  calculate_row_evaporation (mkrow (mkdate 2025 7 15) 28 22 0 45 2.5)
  = Return (Rmax 0
      (0.051 * (1 - 0.08) * 22 * sqrt (28 + 9.5)
       - 2.4 * Rsqr (22 / soreq_Ra 7)
       + 0.052 * (28 + 20) * (1 - 45 / 100) * (1 - 0.38 + 0.536 * 2.5)
       + 0.00012 * 30)).
Proof.
  apply (proj1 (proj2 (row_evaporation
                         (mkrow (mkdate 2025 7 15) 28 22 0 45 2.5)
                         Rabs_22))).
  simpl. lra.
Defined.

(** X21.  Passing a wind speed of 0 is not the same as passing none, and it
    never gives more: with an albedo of at least 4/51 (0.0784...), solar
    radiation not negative, relative humidity at most 100 and any recognized
    wind function, the result at wind speed 0 is at most the result of the
    no-wind branch. *)
Theorem calm_wind_below_nowind (self : PenmanEvaporation)
    (datetime_obj : date_arg) (t_mean rh_mean rs : R) (w : WindFunction)
    (v0 : R) :
  4 / 51 <= albedo self ->
  0 <= rs ->
  rh_mean <= 100 ->
  calculate_daily_evaporation self datetime_obj t_mean rh_mean rs (Some 0)
    (wind_name w) = Return v0 ->
  exists vn,
    calculate_daily_evaporation self datetime_obj t_mean rh_mean rs None
      (wind_name w) = Return vn
    /\ v0 <= vn.
Proof.
  intros Hal Hrs Hrh Hv0.
  destruct (daily_evaporation_return_inv _ _ _ _ _ _ _ _ Hv0)
    as [Ra [N [raw [Hra [Hnz [Ht [Hov _]]]]]]].
  rewrite (daily_evaporation_wind_value self _ t_mean rh_mean rs 0 Ra N w
             Hra Hnz Ht Hov) in Hv0.
  injection Hv0 as <-.
  rewrite (daily_evaporation_nowind_value self _ t_mean rh_mean rs Ra N
             (wind_name w) Hra Hnz Ht Hov).
  eexists. split; [reflexivity |].
  apply max0_monotone.
  pose proof (sqrt_pos (t_mean + 9.5)) as Hroot.
  assert (Hone : 0 <= (0.047 - 0.051 * (1 - albedo self)) * rs
                      * sqrt (t_mean + 9.5)).
  { apply Rmult_le_pos; [apply Rmult_le_pos |]; lra. }
  assert (Htwo : 0 <= (0.09 - 0.052 * (spec_a_u w - 0.38)) * (t_mean + 20)
                      * (1 - rh_mean / 100)).
  { apply Rmult_le_pos; [apply Rmult_le_pos |]; try lra.
    destruct w; simpl; lra. }
  unfold spec_e_pen_wind, spec_e_pen_nowind. lra.
Qed.

Lemma calm_wind_below_nowind_witness :
  exists vn,
    calculate_daily_evaporation soreq (DateText "2025-07-15") 28 45 22 None
      "penman1948" = Return vn
    /\ max0 (spec_e_pen_wind 0.08 30 28 45 22 (soreq_Ra 7) 1 0.536 0) <= vn.
Proof.
  destruct (soreq_radiation "2025-07-15" 2025 7 15 eq_refl) as [Hra Hpos].
  pose proof (soreq_in_range 22 7 Rabs_22) as Hov.
  assert (Hnz : soreq_Ra 7 <> 0) by lra.
  assert (Ht : 0 <= 28 + 9.5) by lra.
  assert (Hal : 4 / 51 <= albedo soreq) by (simpl; lra).
  assert (Hrs : 0 <= 22) by lra.
  assert (Hrh : 45 <= 100) by lra.
  exact (calm_wind_below_nowind soreq (DateText "2025-07-15") 28 45 22
           penman1948 _ Hal Hrs Hrh
           (daily_evaporation_wind_value soreq _ 28 45 22 0 _ _ penman1948
              Hra Hnz Ht Hov)).
Defined.
